(** * supervision.assets.downloader: fetch, verify, repair

    A shallow embedding of [src/supervision/assets/downloader.py]
    ([is_md5_hash_matching] and [download_assets]) together with the
    part of the Python runtime the two functions touch: the MD5 digest
    of [hashlib], a file system tree, the HTTP endpoint behind
    [requests.get] and the standard output. *)

From Stdlib Require Import ZArith Lia List Bool.
From Stdlib Require Import Strings.String Strings.Ascii Strings.Byte.
From stdpp Require Import base option list strings gmap.

Local Open Scope Z_scope.

(* ===================================================================== *)
(** ** hashlib: the MD5 digest (RFC 1321) *)
(* ===================================================================== *)

Module MD5.

(** 32-bit words are kept in [Z]; every addition is reduced again. *)
Definition wrap32 (x : Z) : Z := Z.land x 0xFFFFFFFF.

Definition not32 (x : Z) : Z := Z.lxor x 0xFFFFFFFF.

Definition rotl32 (x c : Z) : Z :=
  wrap32 (Z.lor (Z.shiftl x c) (Z.shiftr x (32 - c))).

Definition shifts : list Z :=
  [ 7; 12; 17; 22;  7; 12; 17; 22;  7; 12; 17; 22;  7; 12; 17; 22;
    5;  9; 14; 20;  5;  9; 14; 20;  5;  9; 14; 20;  5;  9; 14; 20;
    4; 11; 16; 23;  4; 11; 16; 23;  4; 11; 16; 23;  4; 11; 16; 23;
    6; 10; 15; 21;  6; 10; 15; 21;  6; 10; 15; 21;  6; 10; 15; 21 ].

(** [sines !! i] is the integer part of [2^32 * abs (sin (i + 1))]. *)
Definition sines : list Z :=
  [ 0xd76aa478; 0xe8c7b756; 0x242070db; 0xc1bdceee;
    0xf57c0faf; 0x4787c62a; 0xa8304613; 0xfd469501;
    0x698098d8; 0x8b44f7af; 0xffff5bb1; 0x895cd7be;
    0x6b901122; 0xfd987193; 0xa679438e; 0x49b40821;
    0xf61e2562; 0xc040b340; 0x265e5a51; 0xe9b6c7aa;
    0xd62f105d; 0x02441453; 0xd8a1e681; 0xe7d3fbc8;
    0x21e1cde6; 0xc33707d6; 0xf4d50d87; 0x455a14ed;
    0xa9e3e905; 0xfcefa3f8; 0x676f02d9; 0x8d2a4c8a;
    0xfffa3942; 0x8771f681; 0x6d9d6122; 0xfde5380c;
    0xa4beea44; 0x4bdecfa9; 0xf6bb4b60; 0xbebfbc70;
    0x289b7ec6; 0xeaa127fa; 0xd4ef3085; 0x04881d05;
    0xd9d4d039; 0xe6db99e5; 0x1fa27cf8; 0xc4ac5665;
    0xf4292244; 0x432aff97; 0xab9423a7; 0xfc93a039;
    0x655b59c3; 0x8f0ccc92; 0xffeff47d; 0x85845dd1;
    0x6fa87e4f; 0xfe2ce6e0; 0xa3014314; 0x4e0811a1;
    0xf7537e82; 0xbd3af235; 0x2ad7d2bb; 0xeb86d391 ].

(** Little-endian encodings. *)
Fixpoint le_bytes (n : nat) (x : Z) : list Z :=
  match n with
  | O => []
  | S n' => Z.land x 0xFF :: le_bytes n' (Z.shiftr x 8)
  end.

Fixpoint le_word (bs : list Z) : Z :=
  match bs with
  | [] => 0
  | b :: bs' => Z.lor b (Z.shiftl (le_word bs') 8)
  end.

(** The message followed by the bit [1], zeros up to 56 modulo 64 and
    the bit length on 64 bits. *)
Definition pad (msg : list Z) : list Z :=
  let len := Z.of_nat (length msg) in
  msg ++ [0x80] ++ repeat 0 (Z.to_nat ((55 - len) mod 64))
      ++ le_bytes 8 (Z.land (8 * len) 0xFFFFFFFFFFFFFFFF).

(** The sixteen words of a 64-byte block. *)
Fixpoint words (n : nat) (block : list Z) : list Z :=
  match n with
  | O => []
  | S n' => le_word (firstn 4 block) :: words n' (skipn 4 block)
  end.

Record regs := Regs { rA : Z; rB : Z; rC : Z; rD : Z }.

Definition init : regs :=
  Regs 0x67452301 0xefcdab89 0x98badcfe 0x10325476.

Definition operation (M : list Z) (r : regs) (i : nat) : regs :=
  let '(Regs A B C D) := r in
  let iz := Z.of_nat i in
  let '(F, g) :=
    if iz <? 16 then (Z.lor (Z.land B C) (Z.land (not32 B) D), iz)
    else if iz <? 32 then
      (Z.lor (Z.land D B) (Z.land (not32 D) C), (5 * iz + 1) mod 16)
    else if iz <? 48 then (Z.lxor B (Z.lxor C D), (3 * iz + 5) mod 16)
    else (Z.lxor C (Z.lor B (not32 D)), (7 * iz) mod 16) in
  let F' := wrap32 (F + A + nth i sines 0 + nth (Z.to_nat g) M 0) in
  Regs D (wrap32 (B + rotl32 F' (nth i shifts 0))) B C.

Definition compress (r : regs) (block : list Z) : regs :=
  let r' := fold_left (operation (words 16 block)) (seq 0 64) r in
  Regs (wrap32 (rA r + rA r')) (wrap32 (rB r + rB r'))
       (wrap32 (rC r + rC r')) (wrap32 (rD r + rD r')).

Fixpoint blocks (n : nat) (r : regs) (data : list Z) : regs :=
  match n with
  | O => r
  | S n' => blocks n' (compress r (firstn 64 data)) (skipn 64 data)
  end.

Definition digest (msg : list Z) : list Z :=
  let data := pad msg in
  let r := blocks (length data / 64) init data in
  le_bytes 4 (rA r) ++ le_bytes 4 (rB r)
    ++ le_bytes 4 (rC r) ++ le_bytes 4 (rD r).

Definition hex_digit (d : Z) : ascii :=
  ascii_of_nat (Z.to_nat (if d <? 10 then 48 + d else 87 + d)).

Fixpoint hex (bs : list Z) : string :=
  match bs with
  | [] => EmptyString
  | b :: bs' =>
      String (hex_digit (Z.shiftr b 4))
        (String (hex_digit (Z.land b 0xF)) (hex bs'))
  end.

(** [hash_new(name="MD5")] fed with the bytes, then [hexdigest()]:
    thirty-two lowercase hexadecimal digits. *)
Definition hexdigest (contents : list byte) : string :=
  hex (digest (map (fun b => Z.of_N (Byte.to_N b)) contents)).

End MD5.

Definition bytes_of (s : string) : list byte := list_byte_of_string s.

Local Open Scope string_scope.
Local Open Scope list_scope.

(* ===================================================================== *)
(** ** The Python runtime seen by the downloader *)
(* ===================================================================== *)

(** Exceptions that can leave the two functions. *)
Inductive exn : Type :=
  | ValueError (message : string)
  | KeyError (key : string)
  | HTTPError (status : Z)
  | RequestException (what : string)
  | FileNotFoundError
  | FileExistsError
  | NotADirectoryError
  | IsADirectoryError.

(** An absolute, symlink-free location: the components of the path,
    innermost first, so that [/srv/data/vehicles.mp4] is
    [["vehicles.mp4"; "data"; "srv"]], the root is [[]] and the parent
    of a location is its tail. *)
Abbreviation path := (list string).

Definition parent (p : path) : path := tail p.

Inductive node : Type :=
  | File (contents : list byte)
  | Dir.

(** What a call leaves behind, in order. *)
Inductive event : Type :=
  | Stat (pathname : string)
  | ReadAll (pathname : string)
  | Unlink (pathname : string)
  | Mkdir (p : path)
  | WriteAll (p : path) (contents : list byte)
  | HttpGet (url : string)
  | Print (text : string).

Record World : Type := mkWorld {
  fs : gmap path node;
  log : list event
}.

Definition emit (e : event) (w : World) : World :=
  mkWorld (fs w) (log w ++ [e]).

Definition with_fs (m : gmap path node) (w : World) : World :=
  mkWorld m (log w).

(** The answer of [requests.get(url, stream=True, allow_redirects=True)].
    [raw] is the byte stream behind [response.raw]; the Content-Length
    header, when the server sends one, is taken to be a decimal number,
    as HTTP requires, so that [int] accepts it. *)
Record Response : Type := mkResponse {
  status_code : Z;
  content_length : option Z;
  raw : list byte
}.

(** Client errors (4xx) and server errors (5xx). *)
Definition error_status (response : Response) : bool :=
  (400 <=? status_code response)%Z && (status_code response <? 600)%Z.

(** *** Outcomes and the computation monad *)

Inductive outcome (A : Type) : Type :=
  | Returned (a : A)
  | Raised (e : exn)
  | OutOfFuel.
Arguments Returned {A} a.
Arguments Raised {A} e.
Arguments OutOfFuel {A}.

Definition M (A : Type) : Type := World -> outcome A * World.

Definition ret {A} (a : A) : M A := fun w => (Returned a, w).

Definition raise {A} (e : exn) : M A := fun w => (Raised e, w).

Definition out_of_fuel {A} : M A := fun w => (OutOfFuel, w).

Definition bind {A B} (m : M A) (k : A -> M B) : M B :=
  fun w =>
    match m w with
    | (Returned a, w') => k a w'
    | (Raised e, w') => (Raised e, w')
    | (OutOfFuel, w') => (OutOfFuel, w')
    end.

Declare Scope py_scope.
Delimit Scope py_scope with py.
Notation "x <- m ;; k" := (bind m (fun x => k))
  (at level 100, m at next level, right associativity) : py_scope.
Notation "m ;; k" := (bind m (fun _ => k))
  (at level 100, right associativity) : py_scope.

(** [print(text)] *)
Definition print (text : string) : M unit :=
  fun w => (Returned tt, emit (Print text) w).

(** *** The file system *)

(** The root always exists and is a directory. *)
Definition node_at (m : gmap path node) (p : path) : option node :=
  match p with
  | [] => Some Dir
  | _ :: _ => m !! p
  end.

Definition is_dir (m : gmap path node) (p : path) : bool :=
  match node_at m p with
  | Some Dir => true
  | _ => false
  end.

(** [os.mkdir(p)] *)
Definition os_mkdir (p : path) (m : gmap path node)
  : exn + gmap path node :=
  match p with
  | [] => inl FileExistsError
  | _ :: up =>
      match node_at m up with
      | None => inl FileNotFoundError
      | Some (File _) => inl NotADirectoryError
      | Some Dir =>
          match m !! p with
          | Some _ => inl FileExistsError
          | None => inr (<[p := Dir]> m)
          end
      end
  end.

(** [Path.mkdir(parents=True, exist_ok=True)] of pathlib: try
    [os.mkdir]; when the parent is missing, make the parent in the same
    way and try once more; any other [OSError] is swallowed exactly when
    the location is a directory by then. *)
Fixpoint Path_mkdir (p : path) (m : gmap path node)
  : exn + gmap path node :=
  match os_mkdir p m with
  | inr m' => inr m'
  | inl FileNotFoundError =>
      match p with
      | [] => inl FileNotFoundError
      | _ :: up =>
          match Path_mkdir up m with
          | inl e => inl e
          | inr m1 =>
              match os_mkdir p m1 with
              | inr m2 => inr m2
              | inl FileNotFoundError => inl FileNotFoundError
              | inl e => if is_dir m1 p then inr m1 else inl e
              end
          end
      end
  | inl e => if is_dir m p then inr m else inl e
  end.

(** [p.open("wb")]: the file is created or truncated. *)
Definition open_wb (p : path) (m : gmap path node)
  : exn + gmap path node :=
  match p with
  | [] => inl IsADirectoryError
  | _ :: up =>
      match node_at m up with
      | None => inl FileNotFoundError
      | Some (File _) => inl NotADirectoryError
      | Some Dir =>
          match m !! p with
          | Some Dir => inl IsADirectoryError
          | _ => inr (<[p := File []]> m)
          end
      end
  end.

(** [str(Path(s))]: pathlib spells the empty pathname as the current
    directory. *)
Definition Path (s : string) : string :=
  if decide (s = "") then "." else s.

(* ===================================================================== *)
(** ** Python dictionaries in insertion order *)
(* ===================================================================== *)

(** The items of a [dict] with string keys, oldest first.  A [dict]
    holds each key once; the functions below read the first item of a
    key, so they agree with the dictionary on every such list. *)
Section Dict.
Context {V : Type}.

Fixpoint dict_get (d : list (string * V)) (k : string) : option V :=
  match d with
  | [] => None
  | (k', v) :: d' => if decide (k' = k) then Some v else dict_get d' k
  end.

(** [k in d] *)
Definition dict_contains (d : list (string * V)) (k : string) : bool :=
  match dict_get d k with
  | Some _ => true
  | None => false
  end.

(** [d.keys()] *)
Definition dict_keys (d : list (string * V)) : list string := map fst d.

(** [d[k]] *)
Definition dict_getitem (d : list (string * V)) (k : string) : M V :=
  match dict_get d k with
  | Some v => ret v
  | None => raise (KeyError k)
  end.
End Dict.

(** [sep.join(parts)] *)
Fixpoint join (sep : string) (parts : list string) : string :=
  match parts with
  | [] => ""
  | [x] => x
  | x :: rest => x +:+ sep +:+ join sep rest
  end.

Definition LF : string := String (ascii_of_nat 10) "".

(* ===================================================================== *)
(** ** downloader.py *)
(* ===================================================================== *)

(** What the module takes from outside.

    [supervision.assets.list] is imported, not defined, by the module:
    the enumeration base class [Assets] (of which the members of
    [VideoAssets] and [ImageAssets] are instances) with its [filename]
    attribute, and the table [ASSETS] from file name to
    [(url, md5 hash)].

    The operating system and the network: where a non-empty pathname
    leads from the working directory ([resolve]), what
    [Path.expanduser] makes of a pathname, and what the server answers
    to a GET, or the exception [requests.get] raises instead.

    Kept out of the model: symbolic links, permissions and full disks;
    pathnames with a trailing separator, on which pathlib and the
    operating system disagree; a home directory that cannot be found;
    a stream that breaks off (a stream that is opened delivers all of
    [raw]); other processes at work on the same files.  One call runs
    alone, from the first line to the last.  [resolve()] is taken to
    find the working directory: where a statement concludes that a
    download from an empty path goes through, the existence of that
    directory is among its hypotheses. *)
Record Env : Type := mkEnv {
  Assets : Type;
  Assets_filename : Assets -> string;
  ASSETS : list (string * (string * string));
  resolve : string -> path;
  expanduser : string -> string;
  server : string -> exn + Response
}.

Section Downloader.

Variable E : Env.

(** *** System calls *)

(** [os.stat]: the empty pathname names nothing. *)
Definition os_stat (pathname : string) (w : World) : option node :=
  if decide (pathname = "") then None
  else node_at (fs w) (resolve E pathname).

(** [os.path.exists(filename)] *)
Definition os_path_exists (filename : string) : M bool :=
  fun w =>
    (Returned (bool_decide (is_Some (os_stat filename w))),
     emit (Stat filename) w).

(** [Path(filename).exists()] *)
Definition Path_exists (filename : string) : M bool :=
  os_path_exists (Path filename).

(** [open(filename, "rb")] followed by [file.read()] and the close at
    the end of the [with] block. *)
Definition read_binary (filename : string) : M (list byte) :=
  fun w =>
    match os_stat filename w with
    | None => (Raised FileNotFoundError, w)
    | Some Dir => (Raised IsADirectoryError, w)
    | Some (File contents) => (Returned contents, emit (ReadAll filename) w)
    end.

(** [os.remove(filename)] *)
Definition os_remove (filename : string) : M unit :=
  fun w =>
    match os_stat filename w with
    | None => (Raised FileNotFoundError, w)
    | Some Dir => (Raised IsADirectoryError, w)
    | Some (File _) =>
        (Returned tt,
         emit (Unlink filename)
           (with_fs (delete (resolve E filename) (fs w)) w))
    end.

(** [Path(filename).expanduser().resolve()] *)
Definition expanduser_resolve (filename : string) : path :=
  resolve E (expanduser E (Path filename)).

(** [p.mkdir(parents=True, exist_ok=True)] *)
Definition mkdir_parents (p : path) : M unit :=
  fun w =>
    match Path_mkdir p (fs w) with
    | inl e => (Raised e, w)
    | inr m => (Returned tt, emit (Mkdir p) (with_fs m w))
    end.

(** [with p.open("wb") as file: copyfileobj(stream, file)], the stream
    being read through the progress bar of [tqdm.wrapattr], which
    hands the bytes on as they are. *)
Definition write_stream (p : path) (stream : list byte) : M unit :=
  fun w =>
    match open_wb p (fs w) with
    | inl e => (Raised e, w)
    | inr m =>
        (Returned tt,
         emit (WriteAll p stream) (with_fs (<[p := File stream]> m) w))
    end.

(** [get(url, stream=True, allow_redirects=True)] *)
Definition get (url : string) : M Response :=
  fun w =>
    match server E url with
    | inl e => (Raised e, emit (HttpGet url) w)
    | inr response => (Returned response, emit (HttpGet url) w)
    end.

(** [response.raise_for_status()] *)
Definition raise_for_status (response : Response) : M unit :=
  if error_status response
  then raise (HTTPError (status_code response))
  else ret tt.

Local Open Scope py_scope.

(** *** [is_md5_hash_matching] (lines 22-41) *)
Definition is_md5_hash_matching (filename original_md5_hash : string)
  : M bool :=
  present <- os_path_exists filename ;;
  if negb present then ret false
  else
    file_contents <- read_binary filename ;;
    let computed_md5_hash := MD5.hexdigest file_contents in
    ret (bool_decide (computed_md5_hash = original_md5_hash)).

(** *** [download_assets] (lines 44-99) *)

(** The argument is a member of the enumeration or a plain string. *)
Inductive asset_name_t : Type :=
  | Member (v : Assets E)
  | Name (s : string).

(** Line 67. *)
Definition filename_of (asset_name : asset_name_t) : string :=
  match asset_name with
  | Member v => Assets_filename E v
  | Name s => s
  end.

(** Lines 94-97. *)
Definition invalid_asset_message : string :=
  let valid_assets := join ", " (dict_keys (ASSETS E)) in
  "Invalid asset. It should be one of the following: "
    +:+ valid_assets +:+ ".".

(** Lines 70-82. *)
Definition fetch (filename : string) : M unit :=
  print ("Downloading " +:+ filename +:+ " assets " +:+ LF) ;;
  entry <- dict_getitem (ASSETS E) filename ;;
  response <- get (fst entry) ;;
  raise_for_status response ;;
  let file_size := default 0%Z (content_length response) in
  let folder_path := expanduser_resolve filename in
  mkdir_parents (parent folder_path) ;;
  write_stream folder_path (raw response).

(** One activation of the function; [self] stands for the function
    itself at the recursive call of line 89. *)
Definition download_assets_body (self : asset_name_t -> M string)
    (asset_name : asset_name_t) : M string :=
  let filename := filename_of asset_name in
  present <- Path_exists filename ;;
  if negb present && dict_contains (ASSETS E) filename then
    fetch filename ;;
    ret filename
  else
    present' <- Path_exists filename ;;
    if present' then
      entry <- dict_getitem (ASSETS E) filename ;;
      matching <- is_md5_hash_matching filename (snd entry) ;;
      if negb matching then
        print ("File corrupted. Re-downloading... " +:+ LF) ;;
        os_remove filename ;;
        self (Name filename)
      else
        print (filename +:+ " asset download complete. " +:+ LF) ;;
        ret filename
    else
      raise (ValueError invalid_asset_message).

(** [fuel] bounds the number of nested activations. *)
Fixpoint download_assets_fuel (fuel : nat) (asset_name : asset_name_t)
  : M string :=
  match fuel with
  | O => out_of_fuel
  | S fuel' => download_assets_body (download_assets_fuel fuel') asset_name
  end.

(** Two activations are all the function ever needs: more fuel
    changes nothing, as is proved below. *)
Definition download_assets : asset_name_t -> M string :=
  download_assets_fuel 2.

End Downloader.

Arguments Member {E} v.
Arguments Name {E} s.

(* ===================================================================== *)
(** ** Vocabulary of the statements *)
(* ===================================================================== *)

(** The URLs requested, in order. *)
Fixpoint transfers (l : list event) : list string :=
  match l with
  | [] => []
  | HttpGet url :: l' => url :: transfers l'
  | _ :: l' => transfers l'
  end.

Definition is_read (e : event) : bool :=
  match e with ReadAll _ => true | _ => false end.

Definition is_unlink (e : event) : bool :=
  match e with Unlink _ => true | _ => false end.

Definition is_get (e : event) : bool :=
  match e with HttpGet _ => true | _ => false end.

Definition count (P : event -> bool) (l : list event) : nat :=
  length (filter (fun e => P e = true) l).

(** [occurs k s]: the text [k] is found somewhere in [s]. *)
Fixpoint occurs (k s : string) : bool :=
  String.prefix k s ||
  match s with
  | EmptyString => false
  | String _ s' => occurs k s'
  end.

(** No regular file sits at [p] or above it, so that nothing stands in
    the way of making the directory [p]. *)
Definition no_file_above (m : gmap path node) (p : path) : Prop :=
  forall q contents, q `suffix_of` p -> node_at m q <> Some (File contents).

(** What a directory creation that went through has done: the
    directory is there, nothing that was there has changed, and what is
    new are directories on the way to it. *)
Definition grown_to (p : path) (m m' : gmap path node) : Prop :=
  is_dir m' p = true
  /\ m ⊆ m'
  /\ forall q n, m' !! q = Some n ->
       m !! q = Some n \/ (n = Dir /\ q `suffix_of` p).

(** A digit of lowercase hexadecimal notation: [0-9] or [a-f]. *)
Definition lower_hex (c : ascii) : bool :=
  let n := nat_of_ascii c in
  ((48 <=? n) && (n <=? 57) || (97 <=? n) && (n <=? 102))%nat.

Fixpoint all_lower_hex (s : string) : bool :=
  match s with
  | EmptyString => true
  | String c s' => lower_hex c && all_lower_hex s'
  end.

(** The shape of every [hexdigest()] of MD5: thirty-two digits of
    lowercase hexadecimal notation. *)
Definition is_md5_hex (s : string) : bool :=
  (String.length s =? 32)%nat && all_lower_hex s.

(** How the transfer of lines 71-72 fails, if it does: with the
    exception of [get], or with the [HTTPError] of [raise_for_status]. *)
Definition transfer_error (E : Env) (url : string) : option exn :=
  match server E url with
  | inl e => Some e
  | inr response =>
      if error_status response then Some (HTTPError (status_code response))
      else None
  end.

(* ===================================================================== *)
(** ** A small catalogue, to run the definitions on *)
(* ===================================================================== *)

Module Sample.

Inductive VideoAssets : Type := VEHICLES.
Inductive ImageAssets : Type := PEOPLE_WALKING.

Definition filename (v : VideoAssets + ImageAssets) : string :=
  match v with
  | inl VEHICLES => "vehicles.mp4"
  | inr PEOPLE_WALKING => "people-walking.jpg"
  end.

Definition vehicles_url : string := "https://media.example/vehicles.mp4".
Definition people_url : string := "https://media.example/people-walking.jpg".

(** The registered hashes are those of the bytes ["abc"] and
    ["message digest"]. *)
Definition catalogue : list (string * (string * string)) :=
  [ ("vehicles.mp4", (vehicles_url, "900150983cd24fb0d6963f7d28e17f72"));
    ("people-walking.jpg", (people_url, "f96b697d7cb7938d525a2f31aaf161d0")) ].

(** Pathnames are single components under the working directory
    [/work]. *)
Definition in_work (pathname : string) : path :=
  if decide (pathname = ".") then ["work"] else [pathname; "work"].

Definition home (pathname : string) : string :=
  match pathname with
  | String "~" rest => "/home/user" +:+ rest
  | _ => pathname
  end.

Definition ok (body : string) : exn + Response :=
  inr (mkResponse 200 (Some (Z.of_nat (String.length body))) (bytes_of body)).

Definition not_found : exn + Response := inr (mkResponse 404 None []).

(** A server that holds the registered bytes. *)
Definition faithful (url : string) : exn + Response :=
  if decide (url = vehicles_url) then ok "abc"
  else if decide (url = people_url) then ok "message digest"
  else not_found.

(** A server whose copy of the video is not the registered one. *)
Definition stale (url : string) : exn + Response :=
  if decide (url = vehicles_url) then ok "abd" else not_found.

Definition env (srv : string -> exn + Response) : Env :=
  mkEnv (VideoAssets + ImageAssets) filename catalogue in_work home srv.

(** [/work] is empty. *)
Definition cold : World := mkWorld {[ ["work"] := Dir ]} [].

(** [/work/vehicles.mp4] holds the registered bytes. *)
Definition cached : World :=
  mkWorld (<[ ["vehicles.mp4"; "work"] := File (bytes_of "abc") ]>
             {[ ["work"] := Dir ]}) [].

(** [/work/vehicles.mp4] was cut short. *)
Definition corrupt : World :=
  mkWorld (<[ ["vehicles.mp4"; "work"] := File (bytes_of "ab") ]>
             {[ ["work"] := Dir ]}) [].

(** [/work/notes.txt] is a file of the user, not of the catalogue. *)
Definition stray : World :=
  mkWorld (<[ ["notes.txt"; "work"] := File (bytes_of "to do") ]>
             {[ ["work"] := Dir ]}) [].

(** The state in which a repair against the [stale] server ends. *)
Definition repaired_stale : World :=
  mkWorld (<[ ["vehicles.mp4"; "work"] := File (bytes_of "abd") ]>
             {[ ["work"] := Dir ]})
    [ Stat "vehicles.mp4"; Stat "vehicles.mp4"; Stat "vehicles.mp4";
      ReadAll "vehicles.mp4";
      Print ("File corrupted. Re-downloading... " +:+ LF);
      Unlink "vehicles.mp4"; Stat "vehicles.mp4";
      Print ("Downloading " +:+ "vehicles.mp4" +:+ " assets " +:+ LF);
      HttpGet vehicles_url; Mkdir ["work"];
      WriteAll ["vehicles.mp4"; "work"] (bytes_of "abd") ].

(** A server that cannot be reached. *)
Definition unreachable (url : string) : exn + Response :=
  inl (RequestException "connection refused").

(** [/work/vehicles.mp4] is a directory. *)
Definition occupied : World :=
  mkWorld (<[ ["vehicles.mp4"; "work"] := Dir ]> {[ ["work"] := Dir ]}) [].

(** A catalogue whose hash was typed in capitals. *)
Definition capitals : list (string * (string * string)) :=
  [ ("vehicles.mp4", (vehicles_url, "900150983CD24FB0D6963F7D28E17F72")) ].

Definition env_capitals : Env :=
  mkEnv (VideoAssets + ImageAssets) filename capitals in_work home faithful.

(** A catalogue with a name under the home directory, and a file
    system with that directory. *)
Definition clip_url : string := "https://media.example/clip.mp4".

Definition homely : list (string * (string * string)) :=
  [ ("~/clip.mp4", (clip_url, "900150983cd24fb0d6963f7d28e17f72")) ].

Definition locate (pathname : string) : path :=
  if decide (pathname = "/home/user/clip.mp4")
  then ["clip.mp4"; "user"; "home"]
  else in_work pathname.

Definition env_homely : Env :=
  mkEnv (VideoAssets + ImageAssets) filename homely locate home
    (fun url => if decide (url = clip_url) then ok "abc" else not_found).

Definition cold_homely : World :=
  mkWorld (<[ ["user"; "home"] := Dir ]>
             (<[ ["home"] := Dir ]> {[ ["work"] := Dir ]})) [].

(** A catalogue with a name in a directory of its own, which a first
    download has to make. *)
Definition walk_url : string := "https://media.example/clips/walk.jpg".

Definition nested : list (string * (string * string)) :=
  [ ("clips/walk.jpg", (walk_url, "f96b697d7cb7938d525a2f31aaf161d0")) ].

Definition locate_nested (pathname : string) : path :=
  if decide (pathname = "clips/walk.jpg")
  then ["walk.jpg"; "clips"; "work"]
  else in_work pathname.

Definition env_nested : Env :=
  mkEnv (VideoAssets + ImageAssets) filename nested locate_nested home
    (fun url =>
       if decide (url = walk_url) then ok "message digest" else not_found).

End Sample.

(* ===================================================================== *)
(** ** The digest agrees with RFC 1321 *)
(* ===================================================================== *)

(** The test suite of RFC 1321 (A.5), and inputs around the block size. *)
Example md5_empty :
  MD5.hexdigest (bytes_of "") = "d41d8cd98f00b204e9800998ecf8427e".
Proof. vm_compute. reflexivity. Qed.

Example md5_a :
  MD5.hexdigest (bytes_of "a") = "0cc175b9c0f1b6a831c399e269772661".
Proof. vm_compute. reflexivity. Qed.

Example md5_abc :
  MD5.hexdigest (bytes_of "abc") = "900150983cd24fb0d6963f7d28e17f72".
Proof. vm_compute. reflexivity. Qed.

Example md5_message_digest :
  MD5.hexdigest (bytes_of "message digest")
  = "f96b697d7cb7938d525a2f31aaf161d0".
Proof. vm_compute. reflexivity. Qed.

Example md5_56_bytes :
  MD5.hexdigest (repeat "a"%byte 56) = "3b0c8ac703f828b04c6c197006d17218".
Proof. vm_compute. reflexivity. Qed.

Example md5_119_bytes :
  MD5.hexdigest (repeat "a"%byte 119) = "8a7bd0732ed6a28ce75f6dabc90e1613".
Proof. vm_compute. reflexivity. Qed.

(* ===================================================================== *)
(** ** File system lemmas *)
(* ===================================================================== *)

Lemma Path_mkdir_eq p m :
  Path_mkdir p m =
  match os_mkdir p m with
  | inr m' => inr m'
  | inl FileNotFoundError =>
      match p with
      | [] => inl FileNotFoundError
      | _ :: up =>
          match Path_mkdir up m with
          | inl e => inl e
          | inr m1 =>
              match os_mkdir p m1 with
              | inr m2 => inr m2
              | inl FileNotFoundError => inl FileNotFoundError
              | inl e => if is_dir m1 p then inr m1 else inl e
              end
          end
      end
  | inl e => if is_dir m p then inr m else inl e
  end.
Proof. destruct p; reflexivity. Qed.

Lemma os_mkdir_inr p m m' :
  os_mkdir p m = inr m' ->
  exists x up, p = x :: up /\ m !! p = None /\ m' = <[p := Dir]> m.
Proof.
  unfold os_mkdir. destruct p as [|x up]; [discriminate|].
  destruct (node_at m up) as [[c|]|]; try discriminate.
  destruct (m !! (x :: up)) eqn:Hp; [discriminate|].
  intros [= <-]. eauto.
Qed.

Lemma grown_to_refl p m : is_dir m p = true -> grown_to p m m.
Proof. intros H. split; [done|]. split; [done|]. intros q n Hq. by left. Qed.

Lemma grown_to_insert x up m :
  m !! (x :: up) = None -> grown_to (x :: up) m (<[x :: up := Dir]> m).
Proof.
  intros Hnone. split; [|split].
  - unfold is_dir, node_at. by rewrite lookup_insert_eq.
  - by apply insert_subseteq.
  - intros q n. rewrite lookup_insert. case_decide as Hq.
    + intros [= <-]. right. by subst q.
    + by left.
Qed.

Lemma grown_to_step x up m m1 m2 :
  grown_to up m m1 -> grown_to (x :: up) m1 m2 -> grown_to (x :: up) m m2.
Proof.
  intros (_ & Hsub1 & Hnew1) (Hdir & Hsub2 & Hnew2).
  split; [done|]. split; [by etrans|].
  intros q n Hq. destruct (Hnew2 q n Hq) as [H1|H1]; [|by right].
  destruct (Hnew1 q n H1) as [H0|[-> Hsuf]]; [by left|].
  right. split; [done|]. by apply suffix_cons_r.
Qed.

Lemma Path_mkdir_inr p : forall m m',
  Path_mkdir p m = inr m' -> grown_to p m m'.
Proof.
  induction p as [|x up IH]; intros m m'; rewrite Path_mkdir_eq.
  - simpl. intros [= <-]. by apply grown_to_refl.
  - destruct (os_mkdir (x :: up) m) as [e|m0] eqn:Hmk.
    + destruct e;
        try (destruct (is_dir m (x :: up)) eqn:Hd; [|discriminate];
             intros [= <-]; by apply grown_to_refl).
      destruct (Path_mkdir up m) as [e1|m1] eqn:Hup; [discriminate|].
      specialize (IH _ _ Hup).
      destruct (os_mkdir (x :: up) m1) as [e2|m2] eqn:Hmk2.
      * destruct e2;
          try (destruct (is_dir m1 (x :: up)) eqn:Hd; [|discriminate];
               intros [= <-];
               eapply grown_to_step; [done|by apply grown_to_refl]).
        discriminate.
      * intros [= <-].
        apply os_mkdir_inr in Hmk2 as (y & up' & [= <- <-] & Hnone & ->).
        eapply grown_to_step; [done|by apply grown_to_insert].
    + intros [= <-].
      apply os_mkdir_inr in Hmk as (y & up' & [= <- <-] & Hnone & ->).
      by apply grown_to_insert.
Qed.

Lemma no_file_above_tail x up m :
  no_file_above m (x :: up) -> no_file_above m up.
Proof. intros H q c Hq. apply H. by apply suffix_cons_r. Qed.

Lemma no_file_above_self p m c :
  no_file_above m p -> node_at m p <> Some (File c).
Proof. intros H. by apply H. Qed.

(** With no regular file in the way, the directory can be made. *)
Lemma Path_mkdir_ok p : forall m,
  no_file_above m p -> exists m', Path_mkdir p m = inr m'.
Proof.
  induction p as [|x up IH]; intros m Hfree; rewrite Path_mkdir_eq.
  - simpl. eauto.
  - pose proof (no_file_above_tail _ _ _ Hfree) as Hup.
    pose proof (fun c => no_file_above_self _ _ c Hfree) as Hp.
    pose proof (fun c => no_file_above_self _ _ c Hup) as Hu.
    simpl in Hp. unfold os_mkdir at 1.
    destruct (node_at m up) as [[c|]|] eqn:Hnode.
    + by destruct (Hu c).
    + destruct (m !! (x :: up)) as [[c|]|] eqn:Hlook.
      * by destruct (Hp c).
      * unfold is_dir. simpl. rewrite Hlook. eauto.
      * eauto.
    + destruct (IH m Hup) as [m1 Hm1]. rewrite Hm1.
      apply Path_mkdir_inr in Hm1 as (Hdir & Hsub & Hnew).
      unfold is_dir in Hdir. unfold os_mkdir.
      destruct (node_at m1 up) as [[c|]|]; try discriminate.
      destruct (m1 !! (x :: up)) as [n|] eqn:Hlook; [|eauto].
      assert (n = Dir) as ->.
      { destruct (Hnew _ _ Hlook) as [H0|[-> _]]; [|done].
        destruct n as [c|]; [|done]. by destruct (Hp c). }
      unfold is_dir. simpl. rewrite Hlook. eauto.
Qed.

Lemma open_wb_inr p m m' :
  open_wb p m = inr m' -> p <> [] /\ m' = <[p := File []]> m.
Proof.
  unfold open_wb. destruct p as [|x up]; [discriminate|].
  destruct (node_at m up) as [[c|]|]; try discriminate.
  destruct (m !! (x :: up)) as [[c|]|]; try discriminate;
    intros [= <-]; done.
Qed.

Lemma open_wb_ok p m :
  p <> [] -> is_dir m (parent p) = true -> m !! p = None ->
  open_wb p m = inr (<[p := File []]> m).
Proof.
  unfold open_wb, is_dir, parent. destruct p as [|x up]; [done|].
  intros _. simpl. destruct (node_at m up) as [[c|]|]; try discriminate.
  by intros _ ->.
Qed.

(** Creating a directory leaves alone what is not on the way to it. *)
Lemma grown_to_parent_fresh p m m' :
  grown_to (parent p) m m' -> m !! p = None -> p <> [] -> m' !! p = None.
Proof.
  intros (_ & _ & Hnew) Hnone Hp.
  destruct (m' !! p) as [n|] eqn:Hlook; [|done].
  destruct (Hnew _ _ Hlook) as [H0|[_ Hsuf]]; [congruence|].
  destruct p as [|x up]; [done|]. simpl in Hsuf.
  apply suffix_length in Hsuf. simpl in Hsuf. lia.
Qed.

(* ===================================================================== *)
(** ** The branches of [download_assets] *)
(* ===================================================================== *)

Ltac run :=
  unfold download_assets, download_assets_fuel, download_assets_body,
    is_md5_hash_matching, fetch, Path_exists, os_path_exists, read_binary,
    os_remove, mkdir_parents, write_stream, get, raise_for_status,
    dict_getitem, dict_contains, print, bind, ret, raise, out_of_fuel,
    emit, with_fs; simpl.

Ltac bounded :=
  eexists; split; [rewrite <- ?app_assoc; reflexivity|];
  split; [discriminate|]; repeat split; cbv; lia.

Section Branches.

Variable E : Env.
Implicit Types (w : World) (a : asset_name_t E) (f url h : string).

Lemma Path_nonempty f : Path f <> "".
Proof. unfold Path. by case_decide. Qed.

Lemma Path_id f : f <> "" -> Path f = f.
Proof. unfold Path. by case_decide. Qed.

Lemma os_stat_Some f w n : os_stat E f w = Some n -> f <> "".
Proof. unfold os_stat. by case_decide. Qed.

Lemma os_stat_node f w :
  f <> "" -> os_stat E f w = node_at (fs w) (resolve E f).
Proof. unfold os_stat. by case_decide. Qed.

Lemma os_stat_File f w c :
  os_stat E f w = Some (File c) ->
  f <> "" /\ resolve E f <> [] /\ fs w !! resolve E f = Some (File c).
Proof.
  intros H. pose proof (os_stat_Some _ _ _ H) as Hf.
  rewrite os_stat_node in H by done.
  destruct (resolve E f); [discriminate|]. done.
Qed.

(** The download itself, when every step goes through. *)
Lemma fetch_ok f w url h response m1 :
  dict_get (ASSETS E) f = Some (url, h) ->
  server E url = inr response ->
  error_status response = false ->
  Path_mkdir (parent (expanduser_resolve E f)) (fs w) = inr m1 ->
  expanduser_resolve E f <> [] ->
  m1 !! expanduser_resolve E f <> Some Dir ->
  fetch E f w =
    (Returned tt,
     mkWorld (<[expanduser_resolve E f := File (raw response)]> m1)
       (log w ++ [Print ("Downloading " +:+ f +:+ " assets " +:+ LF);
                  HttpGet url;
                  Mkdir (parent (expanduser_resolve E f));
                  WriteAll (expanduser_resolve E f) (raw response)])).
Proof.
  intros Hreg Hsrv Hst Hmk Hne Hnd. destruct w as [m l]. run.
  rewrite Hreg. simpl. rewrite Hsrv, Hst. simpl in *. rewrite Hmk. simpl.
  pose proof (Path_mkdir_inr _ _ _ Hmk) as (Hdir & _ & _).
  unfold open_wb. destruct (expanduser_resolve E f) as [|x up] eqn:Ht;
    [done|].
  simpl in Hdir. unfold is_dir in Hdir.
  destruct (node_at m1 up) as [[c|]|]; try discriminate.
  destruct (m1 !! (x :: up)) as [[c|]|] eqn:Hlook; [|done|];
    rewrite insert_insert_eq, <- !app_assoc; reflexivity.
Qed.

(** Conversely, a download that returned went through every step. *)
Lemma fetch_returned f w u w' :
  fetch E f w = (Returned u, w') ->
  exists url h response m1,
    dict_get (ASSETS E) f = Some (url, h)
    /\ server E url = inr response
    /\ error_status response = false
    /\ Path_mkdir (parent (expanduser_resolve E f)) (fs w) = inr m1
    /\ expanduser_resolve E f <> []
    /\ w' = mkWorld (<[expanduser_resolve E f := File (raw response)]> m1)
              (log w ++ [Print ("Downloading " +:+ f +:+ " assets " +:+ LF);
                         HttpGet url;
                         Mkdir (parent (expanduser_resolve E f));
                         WriteAll (expanduser_resolve E f) (raw response)]).
Proof.
  destruct w as [m l]. run.
  destruct (dict_get (ASSETS E) f) as [[url h]|] eqn:Hreg; [|discriminate].
  simpl. destruct (server E url) as [e|response] eqn:Hsrv; [discriminate|].
  destruct (error_status response) eqn:Hst; [discriminate|]. simpl.
  destruct (Path_mkdir _ m) as [e|m1] eqn:Hmk; [discriminate|]. simpl.
  destruct (open_wb _ m1) as [e|m2] eqn:Hop; [discriminate|].
  apply open_wb_inr in Hop as [Hne ->].
  intros [= _ <-]. exists url, h, response, m1.
  rewrite insert_insert_eq, <- !app_assoc. done.
Qed.

(** Whatever happens, a download asks the server at most once, and
    neither reads nor removes a file. *)
Lemma fetch_bounded f w :
  exists evs,
    log (snd (fetch E f w)) = log w ++ evs
    /\ fst (fetch E f w) <> OutOfFuel
    /\ (count is_get evs <= 1)%nat
    /\ count is_read evs = 0%nat
    /\ count is_unlink evs = 0%nat.
Proof.
  destruct w as [m l]. run.
  destruct (dict_get (ASSETS E) f) as [[url h]|]; simpl; [|bounded].
  destruct (server E url) as [e|response]; [bounded|].
  destruct (error_status response); simpl; [bounded|].
  destruct (Path_mkdir _ m) as [e|m1]; simpl; [bounded|].
  destruct (open_wb _ m1) as [e|m2]; simpl; bounded.
Qed.

(** *** One activation, branch by branch *)

Variable self : asset_name_t E -> M string.

(** Lines 69-82: nothing at the path, name in the table. *)
Lemma body_cold a w entry :
  os_stat E (Path (filename_of E a)) w = None ->
  dict_get (ASSETS E) (filename_of E a) = Some entry ->
  download_assets_body E self a w =
    bind (fetch E (filename_of E a)) (fun _ => ret (filename_of E a))
      (emit (Stat (Path (filename_of E a))) w).
Proof.
  intros Hst Hreg. destruct w as [m l].
  unfold download_assets_body, Path_exists, os_path_exists, bind at 1.
  unfold dict_contains. rewrite Hst, Hreg. reflexivity.
Qed.

(** Lines 93-97: nothing at the path, name not in the table. *)
Lemma body_unknown a w :
  os_stat E (Path (filename_of E a)) w = None ->
  dict_get (ASSETS E) (filename_of E a) = None ->
  download_assets_body E self a w =
    (Raised (ValueError (invalid_asset_message E)),
     mkWorld (fs w)
       (log w ++ [Stat (Path (filename_of E a));
                  Stat (Path (filename_of E a))])).
Proof.
  intros Hst Hreg. destruct w as [m l]. run.
  unfold os_stat in *. simpl in *. rewrite Hst, Hreg. simpl. rewrite Hst.
  simpl. by rewrite <- !app_assoc.
Qed.

(** Line 86 with a name that is not in the table. *)
Lemma body_stray a w n :
  os_stat E (Path (filename_of E a)) w = Some n ->
  dict_get (ASSETS E) (filename_of E a) = None ->
  download_assets_body E self a w =
    (Raised (KeyError (filename_of E a)),
     mkWorld (fs w)
       (log w ++ [Stat (Path (filename_of E a));
                  Stat (Path (filename_of E a))])).
Proof.
  intros Hst Hreg. destruct w as [m l]. run.
  unfold os_stat in *. simpl in *. rewrite Hst, Hreg. simpl. rewrite Hst.
  simpl. by rewrite <- !app_assoc.
Qed.

(** Lines 84-91 on a file whose digest is the registered one. *)
Lemma body_cached a w url h contents :
  os_stat E (filename_of E a) w = Some (File contents) ->
  dict_get (ASSETS E) (filename_of E a) = Some (url, h) ->
  MD5.hexdigest contents = h ->
  download_assets_body E self a w =
    (Returned (filename_of E a),
     mkWorld (fs w)
       (log w ++ [Stat (filename_of E a); Stat (filename_of E a);
                  Stat (filename_of E a); ReadAll (filename_of E a);
                  Print (filename_of E a +:+ " asset download complete. "
                           +:+ LF)])).
Proof.
  intros Hst Hreg Hmd5. destruct w as [m l].
  pose proof (os_stat_Some _ _ _ Hst) as Hf. run.
  rewrite (Path_id _ Hf). unfold os_stat in *. simpl in *.
  rewrite Hst, Hreg. simpl. rewrite Hst. simpl. rewrite Hst. simpl.
  rewrite Hst. rewrite bool_decide_eq_true_2 by done. simpl.
  by rewrite <- !app_assoc.
Qed.

(** Lines 84-89 on a file whose digest is not the registered one: the
    file is removed and the function calls itself. *)
Lemma body_repair a w url h contents :
  os_stat E (filename_of E a) w = Some (File contents) ->
  dict_get (ASSETS E) (filename_of E a) = Some (url, h) ->
  MD5.hexdigest contents <> h ->
  download_assets_body E self a w =
    self (Name (filename_of E a))
      (mkWorld (delete (resolve E (filename_of E a)) (fs w))
         (log w ++ [Stat (filename_of E a); Stat (filename_of E a);
                    Stat (filename_of E a); ReadAll (filename_of E a);
                    Print ("File corrupted. Re-downloading... " +:+ LF);
                    Unlink (filename_of E a)])).
Proof.
  intros Hst Hreg Hmd5. destruct w as [m l].
  pose proof (os_stat_Some _ _ _ Hst) as Hf. run.
  rewrite (Path_id _ Hf). unfold os_stat in *. simpl in *.
  rewrite Hst, Hreg. simpl. rewrite Hst. simpl. rewrite Hst. simpl.
  rewrite Hst. rewrite bool_decide_eq_false_2 by done. simpl.
  rewrite Hst. by rewrite <- !app_assoc.
Qed.

(** Line 36 on a directory. *)
Lemma body_directory a w entry :
  os_stat E (filename_of E a) w = Some Dir ->
  dict_get (ASSETS E) (filename_of E a) = Some entry ->
  download_assets_body E self a w =
    (Raised IsADirectoryError,
     mkWorld (fs w)
       (log w ++ [Stat (filename_of E a); Stat (filename_of E a);
                  Stat (filename_of E a)])).
Proof.
  intros Hst Hreg. destruct w as [m l].
  pose proof (os_stat_Some _ _ _ Hst) as Hf. run.
  rewrite (Path_id _ Hf). unfold os_stat in *. simpl in *.
  rewrite Hst, Hreg. simpl. rewrite Hst. simpl. rewrite Hst. simpl.
  rewrite Hst. by rewrite <- !app_assoc.
Qed.

(** The empty name, were it in the table: [Path("")] is the working
    directory, while [os.path.exists("")] is false and
    [os.remove("")] fails. *)
Lemma body_empty_name a w n entry :
  filename_of E a = "" ->
  os_stat E "." w = Some n ->
  dict_get (ASSETS E) "" = Some entry ->
  download_assets_body E self a w =
    (Raised FileNotFoundError,
     mkWorld (fs w)
       (log w ++ [Stat "."; Stat "."; Stat "";
                  Print ("File corrupted. Re-downloading... " +:+ LF)])).
Proof.
  intros Hf Hst Hreg. destruct w as [m l]. run. rewrite Hf.
  change (Path "") with ".".
  replace (os_stat E "." _) with (Some n).
  rewrite Hreg. simpl. replace (os_stat E "." _) with (Some n).
  simpl. by rewrite <- !app_assoc.
Qed.

(** After the removal of line 88 nothing is left at the path. *)
Lemma removed_is_absent f w contents l :
  os_stat E f w = Some (File contents) ->
  os_stat E (Path f) (mkWorld (delete (resolve E f) (fs w)) l) = None.
Proof.
  intros Hst. apply os_stat_File in Hst as (Hf & Hne & _).
  rewrite (Path_id _ Hf), os_stat_node by done. simpl.
  destruct (resolve E f) eqn:Hr; [done|]. simpl. apply lookup_delete_eq.
Qed.

End Branches.

(** Every activation falls under one of four headings: a download, a
    failure that touches nothing, a cache hit, or a repair, which hands
    over to the next activation after removing the file. *)
Lemma activation_cases E (a : asset_name_t E) w :
  let f := filename_of E a in
  (exists entry,
      os_stat E (Path f) w = None
      /\ dict_get (ASSETS E) f = Some entry
      /\ forall self,
           download_assets_body E self a w =
             bind (fetch E f) (fun _ => ret f) (emit (Stat (Path f)) w))
  \/ (exists e evs,
        (forall self,
           download_assets_body E self a w =
             (Raised e, mkWorld (fs w) (log w ++ evs)))
        /\ count is_read evs = 0%nat
        /\ count is_unlink evs = 0%nat
        /\ count is_get evs = 0%nat)
  \/ (exists contents url h,
        os_stat E f w = Some (File contents)
        /\ dict_get (ASSETS E) f = Some (url, h)
        /\ MD5.hexdigest contents = h
        /\ forall self,
             download_assets_body E self a w =
               (Returned f,
                mkWorld (fs w)
                  (log w ++ [Stat f; Stat f; Stat f; ReadAll f;
                             Print (f +:+ " asset download complete. "
                                      +:+ LF)])))
  \/ (exists contents url h,
        os_stat E f w = Some (File contents)
        /\ dict_get (ASSETS E) f = Some (url, h)
        /\ MD5.hexdigest contents <> h
        /\ forall self,
             download_assets_body E self a w =
               self (Name f)
                 (mkWorld (delete (resolve E f) (fs w))
                    (log w ++ [Stat f; Stat f; Stat f; ReadAll f;
                               Print ("File corrupted. Re-downloading... "
                                        +:+ LF);
                               Unlink f]))).
Proof.
  intros f. subst f.
  destruct (os_stat E (Path (filename_of E a)) w) as [n|] eqn:Hst;
    destruct (dict_get (ASSETS E) (filename_of E a)) as [[url h]|] eqn:Hreg.
  - destruct (decide (filename_of E a = "")) as [Hf|Hf].
    + right; left. rewrite Hf in Hst, Hreg. change (Path "") with "." in Hst.
      do 2 eexists. split; [intros self; by eapply body_empty_name|by cbv].
    + rewrite (Path_id _ Hf) in Hst. destruct n as [contents|].
      * destruct (decide (MD5.hexdigest contents = h)) as [Hmd5|Hmd5].
        -- right; right; left. exists contents, url, h.
           repeat split; try done. intros self. by eapply body_cached.
        -- right; right; right. exists contents, url, h.
           repeat split; try done. intros self. by eapply body_repair.
      * right; left. do 2 eexists. split; [intros self; by eapply body_directory|by cbv].
  - right; left. do 2 eexists. split; [intros self; by eapply body_stray|by cbv].
  - left. eexists. repeat split; try done. intros self. by eapply body_cold.
  - right; left. do 2 eexists. split; [intros self; by apply body_unknown|by cbv].
Qed.

Lemma count_cons P e l :
  count P (e :: l) = ((if P e then 1 else 0) + count P l)%nat.
Proof.
  unfold count. rewrite filter_cons.
  destruct (P e); by case_decide.
Qed.

(** A download followed by [return filename]. *)
Lemma fetch_then_return E f w :
  bind (fetch E f) (fun _ => ret f) w =
    (match fst (fetch E f w) with
     | Returned _ => Returned f
     | Raised e => Raised e
     | OutOfFuel => OutOfFuel
     end, snd (fetch E f w)).
Proof. unfold bind, ret. by destruct (fetch E f w) as [[u|e|] w']. Qed.

(** The activation that follows a repair is a download, whatever the
    fuel left for it. *)
Lemma activation_after_repair E f w contents entry l self :
  os_stat E f w = Some (File contents) ->
  dict_get (ASSETS E) f = Some entry ->
  download_assets_body E self (Name f)
    (mkWorld (delete (resolve E f) (fs w)) l) =
    bind (fetch E f) (fun _ => ret f)
      (mkWorld (delete (resolve E f) (fs w)) (l ++ [Stat f])).
Proof.
  intros Hst Hreg.
  pose proof (removed_is_absent E f w contents l Hst) as Habs.
  rewrite (body_cold E self (Name f) _ entry Habs Hreg). simpl.
  by rewrite (Path_id _ (os_stat_Some _ _ _ _ Hst)).
Qed.

(* ===================================================================== *)
(** ** Lists, tables and texts *)
(* ===================================================================== *)

Lemma transfers_app l1 l2 : transfers (l1 ++ l2) = transfers l1 ++ transfers l2.
Proof.
  induction l1 as [|e l1 IH]; [done|].
  destruct e; simpl; by rewrite ?IH.
Qed.

Lemma dict_get_None {V} (d : list (string * V)) k :
  dict_get d k = None <-> ~ In k (dict_keys d).
Proof.
  induction d as [|[k' v] d IH]; simpl; [tauto|].
  case_decide; [split; [done|tauto]|]. rewrite IH. tauto.
Qed.

Lemma no_file_above_delete m p k :
  no_file_above m p -> no_file_above (delete k m) p.
Proof.
  intros H q c Hq Hnode. apply (H q c Hq).
  destruct q; [done|]. simpl in *.
  by apply lookup_delete_Some in Hnode as [_ ?].
Qed.

Lemma prefix_app k s : String.prefix k (k +:+ s) = true.
Proof.
  induction k as [|c k IH]; simpl; [by destruct s|].
  by destruct (ascii_dec c c).
Qed.

Lemma prefix_app_r k s post :
  String.prefix k s = true -> String.prefix k (s +:+ post) = true.
Proof.
  revert s. induction k as [|c k IH]; intros s; simpl.
  - by destruct (s +:+ post).
  - destruct s as [|c' s]; [done|]. simpl.
    destruct (ascii_dec c c'); [apply IH|done].
Qed.

Lemma occurs_cons k c s :
  occurs k (String c s) = String.prefix k (String c s) || occurs k s.
Proof. reflexivity. Qed.

Lemma occurs_app_l k pre s : occurs k s = true -> occurs k (pre +:+ s) = true.
Proof.
  intros H. induction pre as [|c pre IH]; [done|].
  change (String c pre +:+ s) with (String c (pre +:+ s)).
  rewrite occurs_cons, IH. apply orb_true_r.
Qed.

Lemma occurs_app_r k s post : occurs k s = true -> occurs k (s +:+ post) = true.
Proof.
  induction s as [|c s IH].
  - simpl. rewrite orb_false_r. destruct k; [|done]. intros _. by destruct post.
  - rewrite occurs_cons. intros [H|H]%orb_true_iff;
      change (String c s +:+ post) with (String c (s +:+ post));
      rewrite occurs_cons; apply orb_true_iff.
    + left. exact (prefix_app_r k (String c s) post H).
    + right. by apply IH.
Qed.

Lemma prefix_refl k : String.prefix k k = true.
Proof. induction k as [|c k IH]; simpl; [done|]. by destruct (ascii_dec c c). Qed.

Lemma occurs_self k : occurs k k = true.
Proof. destruct k; [done|]. by rewrite occurs_cons, prefix_refl. Qed.

(** Every part is found in the joined text. *)
Lemma join_occurs sep parts k :
  In k parts -> occurs k (join sep parts) = true.
Proof.
  induction parts as [|x rest IH]; [done|].
  intros [->|Hin].
  - destruct rest; simpl; [apply occurs_self|].
    apply occurs_app_r, occurs_self.
  - destruct rest as [|y rest]; [done|].
    change (join sep (x :: y :: rest))
      with (x +:+ sep +:+ join sep (y :: rest)).
    by apply occurs_app_l, occurs_app_l, IH.
Qed.

(* ===================================================================== *)
(** ** Properties of [is_md5_hash_matching] and [download_assets] *)
(* ===================================================================== *)

(** The three ways through lines 33-41. *)
Lemma is_md5_hash_matching_run E f h w :
  is_md5_hash_matching E f h w =
    match os_stat E f w with
    | None => (Returned false, mkWorld (fs w) (log w ++ [Stat f]))
    | Some Dir => (Raised IsADirectoryError, mkWorld (fs w) (log w ++ [Stat f]))
    | Some (File contents) =>
        (Returned (bool_decide (MD5.hexdigest contents = h)),
         mkWorld (fs w) (log w ++ [Stat f; ReadAll f]))
    end.
Proof.
  destruct w as [m l]. run. unfold os_stat. simpl.
  case_decide; simpl; [done|].
  destruct (node_at m (resolve E f)) as [[c|]|] eqn:Hn; simpl;
    unfold os_stat; simpl; try (case_decide; [done|]);
    rewrite ?Hn; simpl; by rewrite <- ?app_assoc.
Qed.

(** C9, as the code has it.  When nothing exists at [filename],
    [is_md5_hash_matching] returns [False]: it raises nothing, and the
    existence test is its only access to the file system (no read, no
    change).  The function does not answer on every input: it returns
    a boolean exactly when the path is not a directory, and on a
    directory it raises [IsADirectoryError], from the [open] of
    line 36. *)
Theorem is_md5_hash_matching_absent E filename original_md5_hash w :
  os_stat E filename w = None ->
  is_md5_hash_matching E filename original_md5_hash w
    = (Returned false, mkWorld (fs w) (log w ++ [Stat filename]))
  /\ forall h' w',
       ((exists b, fst (is_md5_hash_matching E filename h' w') = Returned b)
        <-> os_stat E filename w' <> Some Dir)
       /\ (fst (is_md5_hash_matching E filename h' w')
             = Raised IsADirectoryError
           <-> os_stat E filename w' = Some Dir).
Proof.
  intros Hst. split.
  - by rewrite is_md5_hash_matching_run, Hst.
  - intros h' w'. rewrite is_md5_hash_matching_run.
    destruct (os_stat E filename w') as [[c|]|]; simpl.
    + split; [split; [done|eauto]|split; discriminate].
    + split; [|done]. split; [by intros [b ?]|done].
    + split; [split; [done|eauto]|split; discriminate].
Qed.

Lemma is_md5_hash_matching_absent_witness :
  is_md5_hash_matching (Sample.env Sample.faithful) "vehicles.mp4"
    "900150983cd24fb0d6963f7d28e17f72" Sample.cold
  = (Returned false, mkWorld (fs Sample.cold) [Stat "vehicles.mp4"]).
Proof.
  exact (proj1 (is_md5_hash_matching_absent (Sample.env Sample.faithful)
                  "vehicles.mp4" "900150983cd24fb0d6963f7d28e17f72"
                  Sample.cold eq_refl)).
Defined.

(** C9 as it is written fails in its last part: the function is not
    total.  With a directory at the path it raises. *)
Lemma is_md5_hash_matching_raises_on_a_directory :
  os_stat (Sample.env Sample.faithful) "vehicles.mp4" Sample.occupied
    = Some Dir
  /\ is_md5_hash_matching (Sample.env Sample.faithful) "vehicles.mp4"
       "900150983cd24fb0d6963f7d28e17f72" Sample.occupied
     = (Raised IsADirectoryError,
        mkWorld (fs Sample.occupied) [Stat "vehicles.mp4"]).
Proof. split; vm_compute; reflexivity. Qed.

(** C10. Called with a member of the enumeration, [download_assets]
    does what it does when called with the member's [filename]: the
    same outcome and the same file system, requests and output, and
    this at every bound on the nesting of activations. *)
Theorem member_is_its_filename E (v : Assets E) w :
  download_assets E (Member v) w
  = download_assets E (Name (Assets_filename E v)) w
  /\ forall fuel,
       download_assets_fuel E fuel (Member v) w
       = download_assets_fuel E fuel (Name (Assets_filename E v)) w.
Proof.
  split; [reflexivity|].
  intros fuel. destruct fuel as [|fuel]; [reflexivity|].
  change (download_assets_body E (download_assets_fuel E fuel) (Member v) w
          = download_assets_body E (download_assets_fuel E fuel)
              (Name (Assets_filename E v)) w).
  unfold download_assets_body. reflexivity.
Qed.

(** Two activations always suffice, and the work of a call is
    bounded. *)
Lemma two_activations_suffice E (a : asset_name_t E) w n :
  download_assets_fuel E (S (S n)) a w = download_assets E a w
  /\ fst (download_assets E a w) <> OutOfFuel
  /\ exists evs,
       log (snd (download_assets E a w)) = log w ++ evs
       /\ (count is_read evs <= 1)%nat
       /\ (count is_unlink evs <= 1)%nat
       /\ (count is_get evs <= 1)%nat.
Proof.
  change (download_assets_fuel E (S (S n)) a w)
    with (download_assets_body E (download_assets_fuel E (S n)) a w).
  change (download_assets E a w)
    with (download_assets_body E (download_assets_fuel E 1) a w).
  destruct (activation_cases E a w)
    as [(entry & Hst & Hreg & Hbody)
       |[(e & evs & Hbody & Hr & Hu & Hg)
        |[(c & url & h & Hst & Hreg & Hmd5 & Hbody)
         |(c & url & h & Hst & Hreg & Hmd5 & Hbody)]]].
  - rewrite !Hbody, fetch_then_return.
    destruct (fetch_bounded E (filename_of E a)
                (emit (Stat (Path (filename_of E a))) w))
      as (evs & Hlog & Hfuel & Hg & Hr & Hu).
    split; [done|]. split.
    + simpl. by destruct (fst (fetch E _ _)).
    + exists (Stat (Path (filename_of E a)) :: evs). simpl.
      rewrite Hlog. simpl. rewrite <- app_assoc.
      rewrite !count_cons, Hr, Hu. split; [done|]. simpl. lia.
  - rewrite !Hbody. split; [done|]. split; [discriminate|].
    exists evs. simpl. rewrite Hr, Hu, Hg. repeat split; lia.
  - rewrite !Hbody. split; [done|]. split; [discriminate|].
    eexists. simpl. split; [reflexivity|]. cbv. lia.
  - rewrite !Hbody.
    change (download_assets_fuel E (S n))
      with (download_assets_body E (download_assets_fuel E n)).
    change (download_assets_fuel E 1)
      with (download_assets_body E (download_assets_fuel E 0)).
    rewrite !(activation_after_repair E _ w c (url, h)) by done.
    rewrite fetch_then_return.
    match goal with |- context [fetch E ?f ?w1] =>
      destruct (fetch_bounded E f w1) as (evs & Hlog & Hfuel & Hg & Hr & Hu)
    end.
    split; [done|]. split.
    + simpl. by destruct (fst (fetch E _ _)).
    + simpl. rewrite Hlog. simpl. rewrite <- !app_assoc. simpl.
      eexists. split; [reflexivity|].
      rewrite !count_cons, Hr, Hu. simpl. lia.
Qed.

(** In the repair path a single activation is not enough: the function
    does call itself. *)
Lemma repair_recurses E (a : asset_name_t E) w url h contents :
  dict_get (ASSETS E) (filename_of E a) = Some (url, h) ->
  os_stat E (filename_of E a) w = Some (File contents) ->
  MD5.hexdigest contents <> h ->
  fst (download_assets_fuel E 1 a w) = OutOfFuel.
Proof.
  intros Hreg Hst Hmd5.
  change (download_assets_fuel E 1 a w)
    with (download_assets_body E (download_assets_fuel E 0) a w).
  by rewrite (body_repair E _ a w url h contents).
Qed.

(** Outside the repair path the function does not call itself. *)
Lemma no_repair_no_recursion E (a : asset_name_t E) w :
  (forall url h contents,
      dict_get (ASSETS E) (filename_of E a) = Some (url, h) ->
      os_stat E (filename_of E a) w = Some (File contents) ->
      MD5.hexdigest contents = h) ->
  download_assets_fuel E 1 a w = download_assets E a w.
Proof.
  intros Hgood.
  change (download_assets_fuel E 1 a w)
    with (download_assets_body E (download_assets_fuel E 0) a w).
  change (download_assets E a w)
    with (download_assets_body E (download_assets_fuel E 1) a w).
  destruct (activation_cases E a w)
    as [(entry & Hst & Hreg & Hbody)
       |[(e & evs & Hbody & _)
        |[(c & url & h & Hst & Hreg & Hmd5 & Hbody)
         |(c & url & h & Hst & Hreg & Hmd5 & Hbody)]]];
    try by rewrite !Hbody.
  by destruct (Hmd5 (Hgood url h c Hreg Hst)).
Qed.

(** C4. [download_assets] terminates on every input, and the repair
    path recurses exactly once.  Two activations always suffice (more
    fuel changes nothing, and the outcome is never that of exhausted
    fuel); one call reads at most one file for its digest, removes at
    most one file and sends at most one request.  In the repair path
    (name in the table, regular file at the path, digest not the
    registered one) one activation is not enough: the file is
    removed and the function calls itself, once, in the state where
    nothing is at the path any more, and that second activation is
    the download of lines 70-82 followed by line 99, which does not
    call the function again.  Outside the repair path the function
    does not call itself at all. *)
Theorem download_assets_terminates E (a : asset_name_t E) w n :
  let f := filename_of E a in
  (download_assets_fuel E (S (S n)) a w = download_assets E a w
   /\ fst (download_assets E a w) <> OutOfFuel
   /\ exists evs,
        log (snd (download_assets E a w)) = log w ++ evs
        /\ (count is_read evs <= 1)%nat
        /\ (count is_unlink evs <= 1)%nat
        /\ (count is_get evs <= 1)%nat)
  /\ (forall url h contents,
        dict_get (ASSETS E) f = Some (url, h) ->
        os_stat E f w = Some (File contents) ->
        MD5.hexdigest contents <> h ->
        let removed :=
          mkWorld (delete (resolve E f) (fs w))
            (log w ++ [Stat f; Stat f; Stat f; ReadAll f;
                       Print ("File corrupted. Re-downloading... " +:+ LF);
                       Unlink f]) in
        fst (download_assets_fuel E 1 a w) = OutOfFuel
        /\ os_stat E (Path f) removed = None
        /\ download_assets E a w = download_assets_fuel E 1 (Name f) removed
        /\ download_assets E a w =
             bind (fetch E f) (fun _ => ret f) (emit (Stat f) removed))
  /\ ((forall url h contents,
         dict_get (ASSETS E) f = Some (url, h) ->
         os_stat E f w = Some (File contents) ->
         MD5.hexdigest contents = h) ->
      download_assets_fuel E 1 a w = download_assets E a w).
Proof.
  intros f. subst f. split; [apply two_activations_suffice|]. split.
  - intros url h contents Hreg Hst Hmd5 removed. subst removed.
    split; [by eapply repair_recurses|].
    split; [by eapply removed_is_absent|].
    assert (download_assets E a w =
              download_assets_fuel E 1 (Name (filename_of E a))
                (mkWorld (delete (resolve E (filename_of E a)) (fs w))
                   (log w ++ [Stat (filename_of E a); Stat (filename_of E a);
                              Stat (filename_of E a);
                              ReadAll (filename_of E a);
                              Print ("File corrupted. Re-downloading... "
                                       +:+ LF);
                              Unlink (filename_of E a)]))) as Hrec.
    { unfold download_assets. simpl.
      by rewrite (body_repair E _ a w url h contents). }
    split; [exact Hrec|]. rewrite Hrec.
    change (download_assets_fuel E 1)
      with (download_assets_body E (download_assets_fuel E 0)).
    by rewrite (activation_after_repair E _ w contents (url, h)).
  - apply no_repair_no_recursion.
Qed.

Lemma download_assets_terminates_witness :
  fst (download_assets_fuel (Sample.env Sample.stale) 1
         (Name "vehicles.mp4") Sample.corrupt) = OutOfFuel
  /\ os_stat (Sample.env Sample.stale) "vehicles.mp4"
       (mkWorld (delete ["vehicles.mp4"; "work"] (fs Sample.corrupt))
          [Stat "vehicles.mp4"; Stat "vehicles.mp4"; Stat "vehicles.mp4";
           ReadAll "vehicles.mp4";
           Print ("File corrupted. Re-downloading... " +:+ LF);
           Unlink "vehicles.mp4"]) = None.
Proof.
  assert (os_stat (Sample.env Sample.stale) "vehicles.mp4" Sample.corrupt
          = Some (File (bytes_of "ab"))) as Hst
    by (vm_compute; reflexivity).
  assert (MD5.hexdigest (bytes_of "ab") <> "900150983cd24fb0d6963f7d28e17f72")
    as Hmd5 by (vm_compute; discriminate).
  destruct (download_assets_terminates (Sample.env Sample.stale)
              (Name "vehicles.mp4") Sample.corrupt 0) as (_ & Hrepair & _).
  destruct (Hrepair Sample.vehicles_url "900150983cd24fb0d6963f7d28e17f72"
              (bytes_of "ab") eq_refl Hst Hmd5) as (Hfuel & Habsent & _).
  split; [exact Hfuel|exact Habsent].
Defined.

(** C5. For a name of the table whose file is there with the
    registered digest, [download_assets] returns the name, leaves the
    whole file system as it was (nothing written, nothing removed),
    and sends no request: all it does is test the existence of the
    file, read it once and print. *)
Theorem cache_hit_is_read_only E (a : asset_name_t E) w url h contents :
  let f := filename_of E a in
  dict_get (ASSETS E) f = Some (url, h) ->
  os_stat E f w = Some (File contents) ->
  MD5.hexdigest contents = h ->
  exists w',
    download_assets E a w = (Returned f, w')
    /\ fs w' = fs w
    /\ os_stat E f w' = Some (File contents)
    /\ transfers (log w') = transfers (log w)
    /\ log w' = log w ++ [Stat f; Stat f; Stat f; ReadAll f;
                          Print (f +:+ " asset download complete. " +:+ LF)].
Proof.
  intros f Hreg Hst Hmd5. subst f. eexists. split.
  - unfold download_assets. simpl. by eapply body_cached.
  - simpl. split; [done|]. split; [|split; [|done]].
    + by rewrite <- Hst.
    + rewrite transfers_app. simpl. by rewrite app_nil_r.
Qed.

Lemma cache_hit_is_read_only_witness :
  exists w',
    download_assets (Sample.env Sample.faithful)
      (Member (E:=Sample.env Sample.faithful) (inl Sample.VEHICLES))
      Sample.cached = (Returned "vehicles.mp4", w')
    /\ fs w' = fs Sample.cached
    /\ os_stat (Sample.env Sample.faithful) "vehicles.mp4" w'
       = Some (File (bytes_of "abc"))
    /\ transfers (log w') = transfers (log Sample.cached)
    /\ log w' = log Sample.cached
                ++ [Stat "vehicles.mp4"; Stat "vehicles.mp4";
                    Stat "vehicles.mp4"; ReadAll "vehicles.mp4";
                    Print ("vehicles.mp4" +:+ " asset download complete. "
                             +:+ LF)].
Proof.
  apply (cache_hit_is_read_only (Sample.env Sample.faithful)
           (Member (E:=Sample.env Sample.faithful) (inl Sample.VEHICLES))
           Sample.cached Sample.vehicles_url
           "900150983cd24fb0d6963f7d28e17f72" (bytes_of "abc"));
    vm_compute; reflexivity.
Defined.

(** Lines 93-97 at the level of the whole function. *)
Lemma unknown_asset_is_rejected_aux E (a : asset_name_t E) w :
  ~ In (filename_of E a) (dict_keys (ASSETS E)) ->
  os_stat E (Path (filename_of E a)) w = None ->
  download_assets E a w =
    (Raised (ValueError (invalid_asset_message E)),
     mkWorld (fs w)
       (log w ++ [Stat (Path (filename_of E a));
                  Stat (Path (filename_of E a))])).
Proof.
  intros Hreg Hst. apply dict_get_None in Hreg.
  unfold download_assets. simpl. by apply body_unknown.
Qed.

(** C6. For a name that is not in the table and with nothing at its
    path, [download_assets] raises the [ValueError] of lines 95-97,
    and every key of the table occurs in its message. *)
Theorem unknown_asset_is_rejected E (a : asset_name_t E) w :
  let f := filename_of E a in
  ~ In f (dict_keys (ASSETS E)) ->
  os_stat E (Path f) w = None ->
  download_assets E a w =
    (Raised (ValueError (invalid_asset_message E)),
     mkWorld (fs w) (log w ++ [Stat (Path f); Stat (Path f)]))
  /\ invalid_asset_message E =
       "Invalid asset. It should be one of the following: "
         +:+ join ", " (dict_keys (ASSETS E)) +:+ "."
  /\ forall k, In k (dict_keys (ASSETS E)) ->
       occurs k (invalid_asset_message E) = true.
Proof.
  intros f Hreg Hst. subst f. split; [|split; [done|]].
  - by apply unknown_asset_is_rejected_aux.
  - intros k Hk. unfold invalid_asset_message.
    by apply occurs_app_l, occurs_app_r, join_occurs.
Qed.

Lemma unknown_asset_is_rejected_witness :
  download_assets (Sample.env Sample.faithful) (Name "nonexistent.ext")
    Sample.cold =
    (Raised (ValueError
       "Invalid asset. It should be one of the following: vehicles.mp4, people-walking.jpg."),
     mkWorld (fs Sample.cold) [Stat "nonexistent.ext"; Stat "nonexistent.ext"])
  /\ occurs "vehicles.mp4"
       (invalid_asset_message (Sample.env Sample.faithful)) = true
  /\ occurs "people-walking.jpg"
       (invalid_asset_message (Sample.env Sample.faithful)) = true.
Proof.
  assert (~ In "nonexistent.ext"
            (dict_keys (ASSETS (Sample.env Sample.faithful)))) as Hreg.
  { simpl. intros [H|[H|[]]]; discriminate H. }
  destruct (unknown_asset_is_rejected (Sample.env Sample.faithful)
              (Name "nonexistent.ext") Sample.cold Hreg eq_refl)
    as (Hrun & _ & Hall).
  split; [exact Hrun|].
  split; apply Hall; simpl; auto.
Defined.

(** What line 86 does with a name that is not in the table when
    something exists at its path: the subscript [ASSETS[filename]]
    raises [KeyError]. *)
Lemma unregistered_existing_path E (a : asset_name_t E) w n :
  let f := filename_of E a in
  ~ In f (dict_keys (ASSETS E)) ->
  os_stat E (Path f) w = Some n ->
  download_assets E a w =
    (Raised (KeyError f),
     mkWorld (fs w) (log w ++ [Stat (Path f); Stat (Path f)])).
Proof.
  intros f Hreg Hst. subst f. apply dict_get_None in Hreg.
  unfold download_assets. simpl. by eapply body_stray.
Qed.

(** C2. The name ["notes.txt"] is not in the table.  With a file of
    that name in the working directory, [download_assets] leaves with
    [KeyError('notes.txt')], raised by the subscript of line 86, and
    not with the [ValueError] that lists the valid names, which is
    what the same name gets when no such file exists. *)
Theorem stray_file_raises_KeyError :
  dict_contains Sample.catalogue "notes.txt" = false
  /\ download_assets (Sample.env Sample.faithful) (Name "notes.txt")
       Sample.stray
     = (Raised (KeyError "notes.txt"),
        mkWorld (fs Sample.stray) [Stat "notes.txt"; Stat "notes.txt"])
  /\ download_assets (Sample.env Sample.faithful) (Name "notes.txt")
       Sample.cold
     = (Raised (ValueError
          (invalid_asset_message (Sample.env Sample.faithful))),
        mkWorld (fs Sample.cold) [Stat "notes.txt"; Stat "notes.txt"]).
Proof.
  assert (~ In "notes.txt"
            (dict_keys (ASSETS (Sample.env Sample.faithful)))) as Hreg.
  { simpl. intros [H|[H|[]]]; discriminate H. }
  split; [reflexivity|]. split.
  - exact (unregistered_existing_path (Sample.env Sample.faithful)
             (Name "notes.txt") Sample.stray
             (File (bytes_of "to do")) Hreg eq_refl).
  - exact (unknown_asset_is_rejected_aux
             (Sample.env Sample.faithful) (Name "notes.txt") Sample.cold
             Hreg eq_refl).
Qed.

(* ===================================================================== *)
(** ** Downloads: what is stored, and what is not checked *)
(* ===================================================================== *)

(** The download of lines 70-82 from a state where nothing is at the
    path and nothing stands in the way of its directory. *)
Lemma fetch_stores E f w url h response :
  dict_get (ASSETS E) f = Some (url, h) ->
  os_stat E (Path f) w = None ->
  expanduser E (Path f) = Path f ->
  server E url = inr response ->
  error_status response = false ->
  no_file_above (fs w) (parent (resolve E (Path f))) ->
  exists m1,
    grown_to (parent (resolve E (Path f))) (fs w) m1
    /\ fetch E f w =
         (Returned tt,
          mkWorld (<[resolve E (Path f) := File (raw response)]> m1)
            (log w ++ [Print ("Downloading " +:+ f +:+ " assets " +:+ LF);
                       HttpGet url;
                       Mkdir (parent (resolve E (Path f)));
                       WriteAll (resolve E (Path f)) (raw response)])).
Proof.
  intros Hreg Hst Hexp Hsrv Hok Hfree.
  destruct (Path_mkdir_ok _ _ Hfree) as [m1 Hmk]. exists m1.
  pose proof (Path_mkdir_inr _ _ _ Hmk) as Hgrown. split; [done|].
  rewrite os_stat_node in Hst by apply Path_nonempty.
  assert (resolve E (Path f) <> []) as Hne.
  { intros Heq. by rewrite Heq in Hst. }
  assert (fs w !! resolve E (Path f) = None) as Hnone.
  { destruct (resolve E (Path f)); [done|]. exact Hst. }
  pose proof (grown_to_parent_fresh _ _ _ Hgrown Hnone Hne) as Hfresh.
  pose proof (fetch_ok E f w url h response m1 Hreg Hsrv Hok) as Hfetch.
  unfold expanduser_resolve in Hfetch. rewrite Hexp in Hfetch.
  apply Hfetch; [done|done|]. by rewrite Hfresh.
Qed.

(** The cold path of the whole function (lines 69-82 and 99). *)
Lemma cold_fetch_aux E (a : asset_name_t E) w url h response :
  dict_get (ASSETS E) (filename_of E a) = Some (url, h) ->
  os_stat E (Path (filename_of E a)) w = None ->
  expanduser E (Path (filename_of E a)) = Path (filename_of E a) ->
  server E url = inr response ->
  error_status response = false ->
  no_file_above (fs w) (parent (resolve E (Path (filename_of E a)))) ->
  exists m1,
    grown_to (parent (resolve E (Path (filename_of E a)))) (fs w) m1
    /\ download_assets E a w =
         (Returned (filename_of E a),
          mkWorld
            (<[resolve E (Path (filename_of E a)) := File (raw response)]> m1)
            (log w ++ [Stat (Path (filename_of E a));
                       Print ("Downloading " +:+ filename_of E a
                                +:+ " assets " +:+ LF);
                       HttpGet url;
                       Mkdir (parent (resolve E (Path (filename_of E a))));
                       WriteAll (resolve E (Path (filename_of E a)))
                         (raw response)])).
Proof.
  intros Hreg Hst Hexp Hsrv Hok Hfree.
  destruct (fetch_stores E (filename_of E a)
              (emit (Stat (Path (filename_of E a))) w) url h response)
    as (m1 & Hgrown & Hfetch); try done.
  exists m1. split; [done|].
  unfold download_assets. simpl.
  rewrite (body_cold E _ a w (url, h)) by done.
  rewrite fetch_then_return, Hfetch. simpl. by rewrite <- app_assoc.
Qed.

(** C8, as the code has it.  For a name of the table with nothing at
    its path, which [expanduser] leaves alone, [download_assets]
    requests the registered URL (once, and nothing else), makes the
    directory of the path with the parents that are missing (what was
    there stays, what is new are directories on the way), stores the
    bytes received at the path and returns the name.  This is when
    bytes are received and can be stored: the working directory
    exists, the server answers with a status that is not an error and
    no regular file stands where a directory is needed.  (A name that
    [expanduser] rewrites is stored at the expanded place, not at its
    path.) *)
Theorem cold_fetch E (a : asset_name_t E) w url h response :
  let f := filename_of E a in
  let target := resolve E (Path f) in
  dict_get (ASSETS E) f = Some (url, h) ->
  os_stat E (Path f) w = None ->
  os_stat E "." w = Some Dir ->
  expanduser E (Path f) = Path f ->
  server E url = inr response ->
  error_status response = false ->
  no_file_above (fs w) (parent target) ->
  exists m1 w',
    download_assets E a w = (Returned f, w')
    /\ grown_to (parent target) (fs w) m1
    /\ fs w' = <[target := File (raw response)]> m1
    /\ os_stat E (Path f) w' = Some (File (raw response))
    /\ transfers (log w') = transfers (log w) ++ [url]
    /\ log w' = log w ++ [Stat (Path f);
                          Print ("Downloading " +:+ f +:+ " assets " +:+ LF);
                          HttpGet url;
                          Mkdir (parent target);
                          WriteAll target (raw response)].
Proof.
  intros f target Hreg Hst Hcwd Hexp Hsrv Hok Hfree. subst f target.
  destruct (cold_fetch_aux E a w url h response)
    as (m1 & Hgrown & Hrun); try done.
  exists m1. eexists. split; [exact Hrun|]. simpl.
  split; [done|]. split; [done|]. split; [|split; [|done]].
  - rewrite os_stat_node by apply Path_nonempty. simpl.
    rewrite os_stat_node in Hst by apply Path_nonempty.
    destruct (resolve E (Path (filename_of E a))) eqn:Hr; [done|].
    simpl. by rewrite lookup_insert_eq.
  - rewrite transfers_app. reflexivity.
Qed.

Lemma cold_fetch_witness :
  exists m1 w',
    download_assets Sample.env_nested (Name "clips/walk.jpg") Sample.cold
      = (Returned "clips/walk.jpg", w')
    /\ grown_to ["clips"; "work"] (fs Sample.cold) m1
    /\ fs w' = <[ ["walk.jpg"; "clips"; "work"]
                    := File (bytes_of "message digest") ]> m1
    /\ os_stat Sample.env_nested "clips/walk.jpg" w'
       = Some (File (bytes_of "message digest"))
    /\ transfers (log w') = transfers (log Sample.cold) ++ [Sample.walk_url]
    /\ log w' = log Sample.cold
                ++ [Stat "clips/walk.jpg";
                    Print ("Downloading " +:+ "clips/walk.jpg"
                             +:+ " assets " +:+ LF);
                    HttpGet Sample.walk_url;
                    Mkdir ["clips"; "work"];
                    WriteAll ["walk.jpg"; "clips"; "work"]
                      (bytes_of "message digest")].
Proof.
  assert (os_stat Sample.env_nested "clips/walk.jpg" Sample.cold = None)
    as Hst by (vm_compute; reflexivity).
  assert (os_stat Sample.env_nested "." Sample.cold = Some Dir)
    as Hcwd by (vm_compute; reflexivity).
  assert (no_file_above (fs Sample.cold) ["clips"; "work"]) as Hfree.
  { intros q c Hq. destruct q as [|x q]; [discriminate|].
    apply suffix_cons_inv in Hq as [[= -> ->]|Hq].
    - vm_compute. discriminate.
    - apply suffix_cons_inv in Hq as [[= -> ->]|Hq].
      + vm_compute. discriminate.
      + by apply suffix_nil_inv in Hq. }
  exact (cold_fetch Sample.env_nested (Name "clips/walk.jpg") Sample.cold
           Sample.walk_url "f96b697d7cb7938d525a2f31aaf161d0"
           (mkResponse 200 (Some 14%Z) (bytes_of "message digest"))
           eq_refl Hst Hcwd eq_refl eq_refl eq_refl Hfree).
Defined.

(** C8 as it is written fails for a name that [expanduser] rewrites:
    the name is in the table, nothing is at its path, the call returns
    the name, and still nothing is at its path: the bytes received
    are under the home directory. *)
Lemma rewritten_name_is_stored_elsewhere :
  exists w',
    dict_get Sample.homely "~/clip.mp4"
      = Some (Sample.clip_url, "900150983cd24fb0d6963f7d28e17f72")
    /\ os_stat Sample.env_homely (Path "~/clip.mp4") Sample.cold_homely = None
    /\ os_stat Sample.env_homely "." Sample.cold_homely = Some Dir
    /\ download_assets Sample.env_homely (Name "~/clip.mp4")
         Sample.cold_homely = (Returned "~/clip.mp4", w')
    /\ os_stat Sample.env_homely (Path "~/clip.mp4") w' = None
    /\ fs w' !! resolve Sample.env_homely "~/clip.mp4" = None
    /\ fs w' !! ["clip.mp4"; "user"; "home"] = Some (File (bytes_of "abc")).
Proof.
  eexists. split; [reflexivity|]. split; [vm_compute; reflexivity|].
  split; [vm_compute; reflexivity|]. split; [vm_compute; reflexivity|].
  split; [vm_compute; reflexivity|]. split; vm_compute; reflexivity.
Qed.

(** A download that returned has stored what the server sent. *)
Lemma fetched E f w r w' :
  f <> "" ->
  expanduser E f = f ->
  bind (fetch E f) (fun _ => ret f) w = (Returned r, w') ->
  r = f
  /\ exists url h response,
       dict_get (ASSETS E) f = Some (url, h)
       /\ server E url = inr response
       /\ os_stat E f w' = Some (File (raw response))
       /\ transfers (log w') = transfers (log w) ++ [url].
Proof.
  intros Hf Hexp. rewrite fetch_then_return.
  destruct (fetch E f w) as [[u|e|] w1] eqn:Hfetch; simpl; try discriminate.
  intros [= <- <-]. split; [done|].
  apply fetch_returned in Hfetch
    as (url & h & response & m1 & Hreg & Hsrv & _ & _ & Hne & ->).
  exists url, h, response. repeat split; try done.
  - unfold expanduser_resolve in *. rewrite (Path_id _ Hf), Hexp in *.
    rewrite os_stat_node by done. simpl.
    destruct (resolve E f); [done|]. simpl. by rewrite lookup_insert_eq.
  - simpl. by rewrite transfers_app.
Qed.

(** Lines 84-91 and 99 at the level of the whole function. *)
Lemma cache_hit_aux E (a : asset_name_t E) w url h contents :
  dict_get (ASSETS E) (filename_of E a) = Some (url, h) ->
  os_stat E (filename_of E a) w = Some (File contents) ->
  MD5.hexdigest contents = h ->
  download_assets E a w =
    (Returned (filename_of E a),
     mkWorld (fs w)
       (log w ++ [Stat (filename_of E a); Stat (filename_of E a);
                  Stat (filename_of E a); ReadAll (filename_of E a);
                  Print (filename_of E a +:+ " asset download complete. "
                           +:+ LF)])).
Proof.
  intros Hreg Hst Hmd5. unfold download_assets. simpl.
  by eapply body_cached.
Qed.

(** C1, as the code has it.  When [download_assets] returns, it
    returns the name, the name is in the table and a regular file is
    at its path.  Either that file was already there with the
    registered digest, and the call changed nothing and sent no
    request; or it holds the bytes that the registered URL has just
    sent, which the function stores without computing their digest, so
    that the digest is the registered one exactly when the server
    sent the registered bytes.  (For names that are not empty and that
    [expanduser] leaves alone, as file names are.) *)
Theorem returned_file_is_cached_or_downloaded E (a : asset_name_t E) w r w' :
  let f := filename_of E a in
  f <> "" ->
  expanduser E f = f ->
  download_assets E a w = (Returned r, w') ->
  r = f
  /\ exists url h contents,
       dict_get (ASSETS E) f = Some (url, h)
       /\ os_stat E f w' = Some (File contents)
       /\ ((MD5.hexdigest contents = h
            /\ fs w' = fs w
            /\ transfers (log w') = transfers (log w))
           \/ (exists response,
                 server E url = inr response
                 /\ contents = raw response
                 /\ transfers (log w') = transfers (log w) ++ [url])).
Proof.
  intros f Hf Hexp. subst f.
  change (download_assets E a w)
    with (download_assets_body E (download_assets_fuel E 1) a w).
  destruct (activation_cases E a w)
    as [(entry & Hst & Hreg & Hbody)
       |[(e & evs & Hbody & _)
        |[(c & url & h & Hst & Hreg & Hmd5 & Hbody)
         |(c & url & h & Hst & Hreg & Hmd5 & Hbody)]]];
    rewrite Hbody.
  - intros Hrun. apply fetched in Hrun
      as (-> & url & h & response & Hreg' & Hsrv & Hfile & Htr); try done.
    split; [done|]. exists url, h, (raw response).
    repeat split; try done. right. exists response.
    repeat split; try done. rewrite Htr. simpl.
    by rewrite transfers_app, app_nil_r.
  - discriminate.
  - intros [= <- <-]. split; [done|]. exists url, h, c.
    repeat split; try done. left. repeat split; try done.
    simpl. by rewrite transfers_app, app_nil_r.
  - change (download_assets_fuel E 1)
      with (download_assets_body E (download_assets_fuel E 0)).
    rewrite (activation_after_repair E _ w c (url, h)) by done.
    intros Hrun. apply fetched in Hrun
      as (-> & url' & h' & response & Hreg' & Hsrv & Hfile & Htr); try done.
    split; [done|]. exists url', h', (raw response).
    repeat split; try done. right. exists response.
    repeat split; try done. rewrite Htr. simpl.
    rewrite <- app_assoc, transfers_app. simpl. by rewrite app_nil_r.
Qed.

Lemma returned_file_is_cached_or_downloaded_witness :
  exists url h contents,
    dict_get Sample.catalogue "vehicles.mp4" = Some (url, h)
    /\ os_stat (Sample.env Sample.stale) "vehicles.mp4" Sample.repaired_stale
       = Some (File contents)
    /\ ((MD5.hexdigest contents = h
         /\ fs Sample.repaired_stale = fs Sample.corrupt
         /\ transfers (log Sample.repaired_stale)
            = transfers (log Sample.corrupt))
        \/ (exists response,
              Sample.stale url = inr response
              /\ contents = raw response
              /\ transfers (log Sample.repaired_stale)
                 = transfers (log Sample.corrupt) ++ [url])).
Proof.
  assert ("vehicles.mp4" <> "") as Hf by discriminate.
  assert (download_assets (Sample.env Sample.stale) (Name "vehicles.mp4")
            Sample.corrupt = (Returned "vehicles.mp4", Sample.repaired_stale))
    as Hrun by (vm_compute; reflexivity).
  exact (proj2 (returned_file_is_cached_or_downloaded
                  (Sample.env Sample.stale) (Name "vehicles.mp4")
                  Sample.corrupt "vehicles.mp4" Sample.repaired_stale
                  Hf eq_refl Hrun)).
Defined.

(** C1 as it is written fails: on a cold start against a server whose
    copy differs from the registered one, [download_assets] returns
    the name, and the file it leaves has another digest than the
    table's. *)
Lemma cold_download_is_not_verified :
  exists w',
    download_assets (Sample.env Sample.stale) (Name "vehicles.mp4")
      Sample.cold = (Returned "vehicles.mp4", w')
    /\ dict_get Sample.catalogue "vehicles.mp4"
       = Some (Sample.vehicles_url, "900150983cd24fb0d6963f7d28e17f72")
    /\ os_stat (Sample.env Sample.stale) "vehicles.mp4" w'
       = Some (File (bytes_of "abd"))
    /\ MD5.hexdigest (bytes_of "abd") = "4911e516e5aa21d327512e0c8b197616"
    /\ MD5.hexdigest (bytes_of "abd") <> "900150983cd24fb0d6963f7d28e17f72".
Proof.
  eexists. split; [vm_compute; reflexivity|].
  split; [reflexivity|]. split; [vm_compute; reflexivity|].
  split; [vm_compute; reflexivity|]. vm_compute. discriminate.
Qed.

(** The repair path of the whole function (lines 84-89, then 69-82
    and 99 in the second activation). *)
Lemma repair_aux E (a : asset_name_t E) w url h old response :
  dict_get (ASSETS E) (filename_of E a) = Some (url, h) ->
  os_stat E (filename_of E a) w = Some (File old) ->
  MD5.hexdigest old <> h ->
  expanduser E (filename_of E a) = filename_of E a ->
  server E url = inr response ->
  error_status response = false ->
  no_file_above (fs w) (parent (resolve E (filename_of E a))) ->
  exists m1,
    grown_to (parent (resolve E (filename_of E a)))
      (delete (resolve E (filename_of E a)) (fs w)) m1
    /\ download_assets E a w =
         (Returned (filename_of E a),
          mkWorld (<[resolve E (filename_of E a) := File (raw response)]> m1)
            (log w ++ [Stat (filename_of E a); Stat (filename_of E a);
                       Stat (filename_of E a); ReadAll (filename_of E a);
                       Print ("File corrupted. Re-downloading... " +:+ LF);
                       Unlink (filename_of E a);
                       Stat (filename_of E a);
                       Print ("Downloading " +:+ filename_of E a
                                +:+ " assets " +:+ LF);
                       HttpGet url;
                       Mkdir (parent (resolve E (filename_of E a)));
                       WriteAll (resolve E (filename_of E a))
                         (raw response)])).
Proof.
  intros Hreg Hst Hmd5 Hexp Hsrv Hok Hfree.
  pose proof (os_stat_Some _ _ _ _ Hst) as Hf.
  unfold download_assets. simpl.
  rewrite (body_repair E _ a w url h old) by done.
  change (download_assets_fuel E 1)
    with (download_assets_body E (download_assets_fuel E 0)).
  rewrite (activation_after_repair E _ w old (url, h)) by done.
  match goal with |- context [bind _ _ ?w1] =>
    destruct (fetch_stores E (filename_of E a) w1 url h response)
      as (m1 & Hgrown & Hfetch)
  end; rewrite ?(Path_id _ Hf); try done.
  - by eapply removed_is_absent in Hst; rewrite (Path_id _ Hf) in Hst.
  - simpl. by apply no_file_above_delete.
  - rewrite (Path_id _ Hf) in *. exists m1. split; [done|].
    rewrite fetch_then_return, Hfetch. simpl. by rewrite <- !app_assoc.
Qed.




(** C7, as the code has it.  On a cold start (name in the table,
    nothing at its path) with a name that [expanduser] leaves alone,
    in a working directory that exists, with a server that answers
    without an error status and no regular file where a directory is
    needed, the first call downloads and returns the name; when the
    bytes received have the registered digest, the second call returns
    the same name, leaves the file system as the first call left it,
    with the bytes received at the path, and sends no request. *)
Theorem second_call_is_a_cache_hit E (a : asset_name_t E) w url h response :
  let f := filename_of E a in
  dict_get (ASSETS E) f = Some (url, h) ->
  os_stat E (Path f) w = None ->
  os_stat E "." w = Some Dir ->
  expanduser E f = f ->
  server E url = inr response ->
  error_status response = false ->
  no_file_above (fs w) (parent (resolve E f)) ->
  MD5.hexdigest (raw response) = h ->
  exists w1 w2,
    download_assets E a w = (Returned f, w1)
    /\ download_assets E a w1 = (Returned f, w2)
    /\ fs w2 = fs w1
    /\ os_stat E f w2 = Some (File (raw response))
    /\ transfers (log w1) = transfers (log w) ++ [url]
    /\ transfers (log w2) = transfers (log w1).
Proof.
  intros f Hreg Hst Hcwd Hexp Hsrv Hok Hfree Hmd5. subst f.
  assert (filename_of E a <> "") as Hf.
  { intros Heq. rewrite Heq in Hst. change (Path "") with "." in Hst.
    congruence. }
  rewrite (Path_id _ Hf) in Hst.
  destruct (cold_fetch_aux E a w url h response)
    as (m1 & Hgrown & Hrun); rewrite ?(Path_id _ Hf); try done.
  rewrite (Path_id _ Hf) in Hrun.
  match type of Hrun with _ = (_, ?w1) =>
    assert (os_stat E (filename_of E a) w1 = Some (File (raw response)))
      as Hst1
  end.
  { rewrite os_stat_node by done. simpl.
    rewrite os_stat_node in Hst by done.
    destruct (resolve E (filename_of E a)); [done|].
    simpl. by rewrite lookup_insert_eq. }
  do 2 eexists. split; [exact Hrun|].
  split; [by eapply cache_hit_aux|].
  simpl. split; [done|]. split; [exact Hst1|]. split.
  - by rewrite transfers_app.
  - rewrite (transfers_app (_ ++ _)). simpl. by rewrite app_nil_r.
Qed.

Lemma second_call_is_a_cache_hit_witness :
  exists w1 w2,
    download_assets (Sample.env Sample.faithful) (Name "vehicles.mp4")
      Sample.cold = (Returned "vehicles.mp4", w1)
    /\ download_assets (Sample.env Sample.faithful) (Name "vehicles.mp4") w1
       = (Returned "vehicles.mp4", w2)
    /\ fs w2 = fs w1
    /\ os_stat (Sample.env Sample.faithful) "vehicles.mp4" w2
       = Some (File (bytes_of "abc"))
    /\ transfers (log w1) = transfers (log Sample.cold)
                            ++ [Sample.vehicles_url]
    /\ transfers (log w2) = transfers (log w1).
Proof.
  assert (os_stat (Sample.env Sample.faithful) "vehicles.mp4" Sample.cold
          = None) as Hst by (vm_compute; reflexivity).
  assert (os_stat (Sample.env Sample.faithful) "." Sample.cold = Some Dir)
    as Hcwd by (vm_compute; reflexivity).
  assert (MD5.hexdigest (bytes_of "abc") = "900150983cd24fb0d6963f7d28e17f72")
    as Hmd5 by (vm_compute; reflexivity).
  assert (no_file_above (fs Sample.cold) ["work"]) as Hfree.
  { intros q c Hq. destruct q as [|x q]; [discriminate|].
    apply suffix_cons_inv in Hq as [[= -> ->]|Hq].
    - vm_compute. discriminate.
    - by apply suffix_nil_inv in Hq. }
  exact (second_call_is_a_cache_hit (Sample.env Sample.faithful)
           (Name "vehicles.mp4") Sample.cold Sample.vehicles_url
           "900150983cd24fb0d6963f7d28e17f72"
           (mkResponse 200 (Some 3%Z) (bytes_of "abc"))
           eq_refl Hst Hcwd eq_refl eq_refl eq_refl Hfree Hmd5).
Defined.

(** C7 as it is written fails: against a server whose copy differs
    from the registered one, the second of two calls on a cold name
    finds the digest wrong, removes the file and sends a second
    request. *)
Lemma second_call_downloads_again :
  exists w1 w2,
    os_stat (Sample.env Sample.stale) "vehicles.mp4" Sample.cold = None
    /\ dict_contains Sample.catalogue "vehicles.mp4" = true
    /\ download_assets (Sample.env Sample.stale) (Name "vehicles.mp4")
         Sample.cold = (Returned "vehicles.mp4", w1)
    /\ download_assets (Sample.env Sample.stale) (Name "vehicles.mp4") w1
       = (Returned "vehicles.mp4", w2)
    /\ transfers (log w1) = [Sample.vehicles_url]
    /\ transfers (log w2) = [Sample.vehicles_url; Sample.vehicles_url].
Proof.
  do 2 eexists. split; [vm_compute; reflexivity|].
  split; [reflexivity|]. split; [vm_compute; reflexivity|].
  split; [vm_compute; reflexivity|]. split; vm_compute; reflexivity.
Qed.

(* ===================================================================== *)
(** ** The shape of a digest *)
(* ===================================================================== *)

Lemma hex_digit_lower d : (0 <= d < 16)%Z -> lower_hex (MD5.hex_digit d) = true.
Proof.
  intros Hd. rewrite <- (Z2Nat.id d) by lia.
  assert (Z.to_nat d < 16)%nat as Hk by lia.
  remember (Z.to_nat d) as k eqn:Heqk. clear Heqk Hd.
  do 16 (destruct k as [|k]; [reflexivity|]). lia.
Qed.

Lemma le_bytes_range n : forall x,
  Forall (fun b => (0 <= b < 256)%Z) (MD5.le_bytes n x).
Proof.
  induction n as [|n IH]; intros x; simpl; constructor; [|apply IH].
  change 255%Z with (Z.ones 8). rewrite Z.land_ones by lia.
  apply Z.mod_pos_bound. lia.
Qed.

Lemma le_bytes_length n x : length (MD5.le_bytes n x) = n.
Proof. revert x. induction n as [|n IH]; intros x; simpl; [done|]. by rewrite IH. Qed.

Lemma hex_shape bs :
  Forall (fun b => (0 <= b < 256)%Z) bs ->
  all_lower_hex (MD5.hex bs) = true
  /\ String.length (MD5.hex bs) = (2 * length bs)%nat.
Proof.
  induction 1 as [|b bs Hb _ [IHhex IHlen]]; [done|].
  cbn [MD5.hex all_lower_hex String.length length].
  rewrite IHhex, IHlen. split; [|lia].
  rewrite !hex_digit_lower; [done| |].
  - change 15%Z with (Z.ones 4). rewrite Z.land_ones by lia.
    apply Z.mod_pos_bound. lia.
  - rewrite Z.shiftr_div_pow2 by lia. change (2 ^ 4)%Z with 16%Z.
    split; [apply Z.div_pos; lia|]. apply Z.div_lt_upper_bound; lia.
Qed.

(** Every digest is written with thirty-two lowercase digits. *)
Lemma hexdigest_shape contents : is_md5_hex (MD5.hexdigest contents) = true.
Proof.
  unfold is_md5_hex, MD5.hexdigest, MD5.digest.
  match goal with |- context [MD5.hex ?bs] =>
    assert (Forall (fun b => (0 <= b < 256)%Z) bs) as Hrange
      by (repeat apply Forall_app_2; apply le_bytes_range);
    assert (length bs = 16%nat) as Hlen
      by (rewrite !length_app, !le_bytes_length; reflexivity);
    destruct (hex_shape bs Hrange) as [Hhex Hl]
  end.
  rewrite Hhex, Hl, Hlen. reflexivity.
Qed.

(* ===================================================================== *)
(** ** More on [is_md5_hash_matching] *)
(* ===================================================================== *)

(** X1. [is_md5_hash_matching] only looks: whatever the path, the hash
    and the outcome, the file system is afterwards what it was, no
    request has been sent, and the function has tested the existence
    of the path once and read the file at most once. *)
Theorem is_md5_hash_matching_only_looks E f h w :
  fs (snd (is_md5_hash_matching E f h w)) = fs w
  /\ transfers (log (snd (is_md5_hash_matching E f h w))) = transfers (log w)
  /\ (log (snd (is_md5_hash_matching E f h w)) = log w ++ [Stat f]
      \/ log (snd (is_md5_hash_matching E f h w))
         = log w ++ [Stat f; ReadAll f]).
Proof.
  rewrite is_md5_hash_matching_run.
  destruct (os_stat E f w) as [[c|]|]; simpl;
    rewrite transfers_app, app_nil_r; auto.
Qed.

(** X2. What [is_md5_hash_matching] answers.  [True] exactly when a
    regular file is at the path and the digest of its contents is the
    given string, character for character; [False] exactly when
    nothing is at the path or a regular file with another digest is;
    and it raises exactly when the path is a directory, and then
    [IsADirectoryError], from the [open] of line 36. *)
Theorem is_md5_hash_matching_answers E f h w :
  (fst (is_md5_hash_matching E f h w) = Returned true <->
     exists contents,
       os_stat E f w = Some (File contents) /\ MD5.hexdigest contents = h)
  /\ (fst (is_md5_hash_matching E f h w) = Returned false <->
        os_stat E f w = None
        \/ exists contents,
             os_stat E f w = Some (File contents)
             /\ MD5.hexdigest contents <> h)
  /\ (forall e,
        fst (is_md5_hash_matching E f h w) = Raised e <->
          e = IsADirectoryError /\ os_stat E f w = Some Dir).
Proof.
  rewrite is_md5_hash_matching_run.
  destruct (os_stat E f w) as [[c|]|]; simpl.
  - destruct (decide (MD5.hexdigest c = h)) as [Heq|Hne].
    + rewrite bool_decide_eq_true_2 by done. split; [|split].
      * split; [eauto|done].
      * split; [discriminate|]. intros [?|(c' & [= <-] & ?)]; done.
      * intros e. split; [discriminate|]. by intros [_ ?].
    + rewrite bool_decide_eq_false_2 by done. split; [|split].
      * split; [discriminate|]. by intros (c' & [= <-] & ?).
      * split; [eauto|done].
      * intros e. split; [discriminate|]. by intros [_ ?].
  - split; [|split].
    + split; [discriminate|]. by intros (c' & ? & _).
    + split; [discriminate|]. intros [?|(c' & ? & _)]; done.
    + intros e. split; [by intros [= <-]|]. by intros [-> _].
  - split; [|split].
    + split; [discriminate|]. by intros (c' & ? & _).
    + split; [auto|done].
    + intros e. split; [discriminate|]. by intros [_ ?].
Qed.

(** X3. [is_md5_hash_matching] answers [True] only to a hash of
    thirty-two lowercase hexadecimal digits: a hash written in
    capitals, or cut short, matches no file. *)
Theorem is_md5_hash_matching_wants_lowercase E f h w :
  fst (is_md5_hash_matching E f h w) = Returned true ->
  is_md5_hex h = true.
Proof.
  rewrite is_md5_hash_matching_run.
  destruct (os_stat E f w) as [[c|]|]; simpl; try discriminate.
  intros [= Hm]. apply bool_decide_eq_true in Hm as <-.
  apply hexdigest_shape.
Qed.

Lemma is_md5_hash_matching_wants_lowercase_witness :
  is_md5_hex "900150983cd24fb0d6963f7d28e17f72" = true.
Proof.
  assert (fst (is_md5_hash_matching (Sample.env Sample.faithful)
                 "vehicles.mp4" "900150983cd24fb0d6963f7d28e17f72"
                 Sample.cached) = Returned true) as Hrun
    by (vm_compute; reflexivity).
  exact (is_md5_hash_matching_wants_lowercase (Sample.env Sample.faithful)
           "vehicles.mp4" "900150983cd24fb0d6963f7d28e17f72"
           Sample.cached Hrun).
Defined.

(* ===================================================================== *)
(** ** More on the download of lines 70-82 *)
(* ===================================================================== *)

Lemma count_get_transfers evs : count is_get evs = 0%nat -> transfers evs = [].
Proof.
  induction evs as [|e evs IH]; [done|].
  rewrite count_cons. destruct e; simpl; try (intros H; apply IH; lia).
  discriminate.
Qed.

(** A transfer that fails leaves the file system alone. *)
Lemma fetch_transfer_error E f w url h e :
  dict_get (ASSETS E) f = Some (url, h) ->
  transfer_error E url = Some e ->
  fetch E f w =
    (Raised e,
     mkWorld (fs w)
       (log w ++ [Print ("Downloading " +:+ f +:+ " assets " +:+ LF);
                  HttpGet url])).
Proof.
  intros Hreg Herr. destruct w as [m l]. unfold transfer_error in Herr.
  run. rewrite Hreg. simpl.
  destruct (server E url) as [e'|response].
  - injection Herr as ->. by rewrite <- app_assoc.
  - destruct (error_status response); [|discriminate].
    injection Herr as <-. simpl. by rewrite <- app_assoc.
Qed.

(** For a name of the table, one request goes out, to its URL. *)
Lemma fetch_transfers E f w url h :
  dict_get (ASSETS E) f = Some (url, h) ->
  transfers (log (snd (fetch E f w))) = transfers (log w) ++ [url].
Proof.
  intros Hreg. destruct w as [m l]. run. rewrite Hreg. simpl.
  destruct (server E url) as [e|response]; simpl;
    [by rewrite <- app_assoc, transfers_app|].
  destruct (error_status response); simpl;
    [by rewrite <- app_assoc, transfers_app|].
  destruct (Path_mkdir _ m) as [e|m1]; simpl;
    [by rewrite <- app_assoc, transfers_app|].
  destruct (open_wb _ m1) as [e|m2]; simpl;
    rewrite <- !app_assoc, transfers_app; simpl; done.
Qed.

(** What a download does to the file system: directories on the way
    to the target, then the target. *)
Lemma fetch_fs E f w :
  exists m1,
    (m1 = fs w \/ grown_to (parent (expanduser_resolve E f)) (fs w) m1)
    /\ (fs (snd (fetch E f w)) = m1
        \/ exists contents,
             fs (snd (fetch E f w))
             = <[expanduser_resolve E f := File contents]> m1).
Proof.
  destruct w as [m l]. run.
  destruct (dict_get (ASSETS E) f) as [[url h]|]; simpl; [|eauto].
  destruct (server E url) as [e|response]; simpl; [eauto|].
  destruct (error_status response); simpl; [eauto|].
  destruct (Path_mkdir _ m) as [e|m1] eqn:Hmk; simpl; [eauto|].
  apply Path_mkdir_inr in Hmk. exists m1. split; [by right|].
  destruct (open_wb _ m1) as [e|m2] eqn:Hop; simpl; [by left|].
  apply open_wb_inr in Hop as [_ ->]. right. eexists.
  by rewrite insert_insert_eq.
Qed.

Lemma fetch_keeps E f w q n :
  fs w !! q = Some n ->
  q <> expanduser_resolve E f ->
  fs (snd (fetch E f w)) !! q = Some n.
Proof.
  intros Hq Hne.
  destruct (fetch_fs E f w) as (m1 & Hm1 & Hfs).
  assert (m1 !! q = Some n) as Hq1.
  { destruct Hm1 as [->|(_ & Hsub & _)]; [done|].
    by eapply lookup_weaken. }
  destruct Hfs as [->|[c ->]]; [done|]. by rewrite lookup_insert_ne.
Qed.

Lemma fetch_adds E f w q n :
  fs (snd (fetch E f w)) !! q = Some n ->
  fs w !! q = Some n
  \/ q = expanduser_resolve E f
  \/ (n = Dir /\ q `suffix_of` parent (expanduser_resolve E f)).
Proof.
  intros Hq.
  destruct (fetch_fs E f w) as (m1 & Hm1 & Hfs).
  assert (m1 !! q = Some n ->
          fs w !! q = Some n
          \/ (n = Dir /\ q `suffix_of` parent (expanduser_resolve E f)))
    as Hold.
  { destruct Hm1 as [->|(_ & _ & Hnew)]; [by left|]. apply Hnew. }
  destruct Hfs as [Heq|[c Heq]]; rewrite Heq in Hq.
  - destruct (Hold Hq); auto.
  - destruct (decide (q = expanduser_resolve E f)) as [->|Hne]; [auto|].
    rewrite lookup_insert_ne in Hq by done. destruct (Hold Hq); auto.
Qed.

(* ===================================================================== *)
(** ** More on [download_assets] *)
(* ===================================================================== *)

(** X4. A directory at the path of a name of the table is neither
    removed nor replaced: [download_assets] fails with
    [IsADirectoryError], raised by the [open] of line 36, having
    changed nothing and requested nothing. *)
Theorem directory_is_left_alone E (a : asset_name_t E) w entry :
  let f := filename_of E a in
  dict_get (ASSETS E) f = Some entry ->
  os_stat E f w = Some Dir ->
  download_assets E a w =
    (Raised IsADirectoryError,
     mkWorld (fs w) (log w ++ [Stat f; Stat f; Stat f])).
Proof.
  intros f Hreg Hst. subst f. unfold download_assets. simpl.
  by eapply body_directory.
Qed.

Lemma directory_is_left_alone_witness :
  download_assets (Sample.env Sample.faithful) (Name "vehicles.mp4")
    Sample.occupied =
    (Raised IsADirectoryError,
     mkWorld (fs Sample.occupied)
       [Stat "vehicles.mp4"; Stat "vehicles.mp4"; Stat "vehicles.mp4"]).
Proof.
  assert (os_stat (Sample.env Sample.faithful) "vehicles.mp4" Sample.occupied
          = Some Dir) as Hst by (vm_compute; reflexivity).
  exact (directory_is_left_alone (Sample.env Sample.faithful)
           (Name "vehicles.mp4") Sample.occupied
           (Sample.vehicles_url, "900150983cd24fb0d6963f7d28e17f72")
           eq_refl Hst).
Defined.

(** X5. A name that is not in the table costs nothing: the call
    raises, sends no request and leaves the file system as it was,
    having only tested the existence of the path, twice.  What it
    raises depends on the path: [ValueError] when nothing is there,
    [KeyError] when something is. *)
Theorem unregistered_name_is_harmless E (a : asset_name_t E) w :
  let f := filename_of E a in
  ~ In f (dict_keys (ASSETS E)) ->
  exists e,
    download_assets E a w =
      (Raised e, mkWorld (fs w) (log w ++ [Stat (Path f); Stat (Path f)]))
    /\ ((e = ValueError (invalid_asset_message E)
         /\ os_stat E (Path f) w = None)
        \/ (e = KeyError f /\ is_Some (os_stat E (Path f) w))).
Proof.
  intros f Hreg. subst f.
  destruct (os_stat E (Path (filename_of E a)) w) as [n|] eqn:Hst.
  - exists (KeyError (filename_of E a)). split; [|right; eauto].
    by eapply unregistered_existing_path.
  - exists (ValueError (invalid_asset_message E)). split; [|left; eauto].
    by apply unknown_asset_is_rejected_aux.
Qed.

Lemma unregistered_name_is_harmless_witness :
  exists e,
    download_assets (Sample.env Sample.faithful) (Name "notes.txt")
      Sample.stray =
      (Raised e,
       mkWorld (fs Sample.stray) [Stat "notes.txt"; Stat "notes.txt"])
    /\ ((e = ValueError (invalid_asset_message (Sample.env Sample.faithful))
         /\ os_stat (Sample.env Sample.faithful) "notes.txt" Sample.stray
            = None)
        \/ (e = KeyError "notes.txt"
            /\ is_Some (os_stat (Sample.env Sample.faithful) "notes.txt"
                          Sample.stray))).
Proof.
  assert (~ In "notes.txt"
            (dict_keys (ASSETS (Sample.env Sample.faithful)))) as Hreg.
  { simpl. intros [H|[H|[]]]; discriminate H. }
  exact (unregistered_name_is_harmless (Sample.env Sample.faithful)
           (Name "notes.txt") Sample.stray Hreg).
Defined.

(** X6. What [download_assets] returns, when it returns, is the file
    name it worked with (for a member of the enumeration, its
    [filename]), as given and not as resolved; and it returns for
    names of the table only. *)
Theorem returns_the_registered_name E (a : asset_name_t E) w r w' :
  download_assets E a w = (Returned r, w') ->
  r = filename_of E a
  /\ dict_contains (ASSETS E) (filename_of E a) = true.
Proof.
  change (download_assets E a w)
    with (download_assets_body E (download_assets_fuel E 1) a w).
  destruct (activation_cases E a w)
    as [(entry & Hst & Hreg & Hbody)
       |[(e & evs & Hbody & _)
        |[(c & url & h & Hst & Hreg & Hmd5 & Hbody)
         |(c & url & h & Hst & Hreg & Hmd5 & Hbody)]]];
    rewrite Hbody; unfold dict_contains; try rewrite Hreg.
  - rewrite fetch_then_return.
    destruct (fst (fetch E _ _)); try discriminate. by intros [= <- _].
  - discriminate.
  - by intros [= <- _].
  - change (download_assets_fuel E 1)
      with (download_assets_body E (download_assets_fuel E 0)).
    rewrite (activation_after_repair E _ w c (url, h)) by done.
    rewrite fetch_then_return.
    destruct (fst (fetch E _ _)); try discriminate. by intros [= <- _].
Qed.

Lemma returns_the_registered_name_witness :
  "vehicles.mp4" = filename_of (Sample.env Sample.stale) (Name "vehicles.mp4")
  /\ dict_contains Sample.catalogue "vehicles.mp4" = true.
Proof.
  assert (download_assets (Sample.env Sample.stale) (Name "vehicles.mp4")
            Sample.corrupt = (Returned "vehicles.mp4", Sample.repaired_stale))
    as Hrun by (vm_compute; reflexivity).
  exact (returns_the_registered_name (Sample.env Sample.stale)
           (Name "vehicles.mp4") Sample.corrupt "vehicles.mp4"
           Sample.repaired_stale Hrun).
Defined.

(** X7. On a cold start, a transfer that fails (an exception of
    [get], or a 4xx or 5xx status) is raised to the caller before
    anything is written: the file system is as it was, no directory
    has been made, and exactly one request has gone out, to the
    registered URL. *)
Theorem cold_transfer_failure E (a : asset_name_t E) w url h e :
  let f := filename_of E a in
  dict_get (ASSETS E) f = Some (url, h) ->
  os_stat E (Path f) w = None ->
  transfer_error E url = Some e ->
  download_assets E a w =
    (Raised e,
     mkWorld (fs w)
       (log w ++ [Stat (Path f);
                  Print ("Downloading " +:+ f +:+ " assets " +:+ LF);
                  HttpGet url])).
Proof.
  intros f Hreg Hst Herr. subst f. unfold download_assets. simpl.
  rewrite (body_cold E _ a w (url, h)) by done.
  rewrite fetch_then_return.
  rewrite (fetch_transfer_error E _ _ url h e) by done.
  simpl. by rewrite <- app_assoc.
Qed.

Lemma cold_transfer_failure_witness :
  download_assets (Sample.env Sample.unreachable) (Name "vehicles.mp4")
    Sample.cold =
    (Raised (RequestException "connection refused"),
     mkWorld (fs Sample.cold)
       [Stat "vehicles.mp4";
        Print ("Downloading " +:+ "vehicles.mp4" +:+ " assets " +:+ LF);
        HttpGet Sample.vehicles_url]).
Proof.
  exact (cold_transfer_failure (Sample.env Sample.unreachable)
           (Name "vehicles.mp4") Sample.cold Sample.vehicles_url
           "900150983cd24fb0d6963f7d28e17f72"
           (RequestException "connection refused")
           eq_refl eq_refl eq_refl).
Defined.

(** X8. A repair is not undone: the file whose digest is wrong is
    removed before the new transfer starts, so that when that transfer
    fails the call raises and nothing is left at the path; the rest
    of the file system is as it was. *)
Theorem repair_transfer_failure E (a : asset_name_t E) w url h old e :
  let f := filename_of E a in
  dict_get (ASSETS E) f = Some (url, h) ->
  os_stat E f w = Some (File old) ->
  MD5.hexdigest old <> h ->
  transfer_error E url = Some e ->
  exists w',
    download_assets E a w = (Raised e, w')
    /\ fs w' = delete (resolve E f) (fs w)
    /\ os_stat E f w' = None
    /\ transfers (log w') = transfers (log w) ++ [url].
Proof.
  intros f Hreg Hst Hmd5 Herr. subst f.
  unfold download_assets. simpl.
  rewrite (body_repair E _ a w url h old) by done.
  change (download_assets_fuel E 1)
    with (download_assets_body E (download_assets_fuel E 0)).
  rewrite (activation_after_repair E _ w old (url, h)) by done.
  rewrite fetch_then_return.
  rewrite (fetch_transfer_error E _ _ url h e) by done. simpl.
  eexists. split; [reflexivity|]. simpl. split; [done|]. split.
  - pose proof (removed_is_absent E _ w old [] Hst) as Habs.
    by rewrite (Path_id _ (os_stat_Some _ _ _ _ Hst)) in Habs.
  - rewrite <- !app_assoc, transfers_app. reflexivity.
Qed.

Lemma repair_transfer_failure_witness :
  exists w',
    download_assets (Sample.env Sample.unreachable) (Name "vehicles.mp4")
      Sample.corrupt = (Raised (RequestException "connection refused"), w')
    /\ fs w' = delete ["vehicles.mp4"; "work"] (fs Sample.corrupt)
    /\ os_stat (Sample.env Sample.unreachable) "vehicles.mp4" w' = None
    /\ transfers (log w') = transfers (log Sample.corrupt)
                            ++ [Sample.vehicles_url].
Proof.
  assert (os_stat (Sample.env Sample.unreachable) "vehicles.mp4"
            Sample.corrupt = Some (File (bytes_of "ab"))) as Hst
    by (vm_compute; reflexivity).
  assert (MD5.hexdigest (bytes_of "ab") <> "900150983cd24fb0d6963f7d28e17f72")
    as Hmd5 by (vm_compute; discriminate).
  exact (repair_transfer_failure (Sample.env Sample.unreachable)
           (Name "vehicles.mp4") Sample.corrupt Sample.vehicles_url
           "900150983cd24fb0d6963f7d28e17f72" (bytes_of "ab")
           (RequestException "connection refused")
           eq_refl Hst Hmd5 eq_refl).
Defined.

(** X9. Repair against a server that holds the registered bytes
    restores the file: the call returns the name, the file at the
    path then has the registered digest ([is_md5_hash_matching]
    answers [True]), and the next call is a cache hit that returns
    the same name, changes nothing and sends no request. *)
Theorem repair_restores_the_file E (a : asset_name_t E) w url h old response :
  let f := filename_of E a in
  dict_get (ASSETS E) f = Some (url, h) ->
  os_stat E f w = Some (File old) ->
  MD5.hexdigest old <> h ->
  expanduser E f = f ->
  server E url = inr response ->
  error_status response = false ->
  no_file_above (fs w) (parent (resolve E f)) ->
  MD5.hexdigest (raw response) = h ->
  exists w1 w2,
    download_assets E a w = (Returned f, w1)
    /\ os_stat E f w1 = Some (File (raw response))
    /\ fst (is_md5_hash_matching E f h w1) = Returned true
    /\ download_assets E a w1 = (Returned f, w2)
    /\ fs w2 = fs w1
    /\ transfers (log w2) = transfers (log w1).
Proof.
  intros f Hreg Hst Hmd5 Hexp Hsrv Hok Hfree Hnew. subst f.
  destruct (repair_aux E a w url h old response)
    as (m1 & Hgrown & Hrun); try done.
  apply os_stat_File in Hst as (Hf & Hne & _).
  match type of Hrun with _ = (_, ?w1) =>
    assert (os_stat E (filename_of E a) w1 = Some (File (raw response)))
      as Hst1
  end.
  { rewrite os_stat_node by done. simpl.
    destruct (resolve E (filename_of E a)); [done|].
    simpl. by rewrite lookup_insert_eq. }
  do 2 eexists. split; [exact Hrun|]. split; [exact Hst1|]. split.
  - rewrite is_md5_hash_matching_run, Hst1. simpl.
    by rewrite bool_decide_eq_true_2.
  - split; [by eapply cache_hit_aux|]. simpl. split; [done|].
    rewrite (transfers_app (_ ++ _)). simpl. by rewrite app_nil_r.
Qed.

Lemma repair_restores_the_file_witness :
  exists w1 w2,
    download_assets (Sample.env Sample.faithful) (Name "vehicles.mp4")
      Sample.corrupt = (Returned "vehicles.mp4", w1)
    /\ os_stat (Sample.env Sample.faithful) "vehicles.mp4" w1
       = Some (File (bytes_of "abc"))
    /\ fst (is_md5_hash_matching (Sample.env Sample.faithful) "vehicles.mp4"
              "900150983cd24fb0d6963f7d28e17f72" w1) = Returned true
    /\ download_assets (Sample.env Sample.faithful) (Name "vehicles.mp4") w1
       = (Returned "vehicles.mp4", w2)
    /\ fs w2 = fs w1
    /\ transfers (log w2) = transfers (log w1).
Proof.
  assert (os_stat (Sample.env Sample.faithful) "vehicles.mp4"
            Sample.corrupt = Some (File (bytes_of "ab"))) as Hst
    by (vm_compute; reflexivity).
  assert (MD5.hexdigest (bytes_of "ab") <> "900150983cd24fb0d6963f7d28e17f72")
    as Hmd5 by (vm_compute; discriminate).
  assert (MD5.hexdigest (bytes_of "abc") = "900150983cd24fb0d6963f7d28e17f72")
    as Hnew by (vm_compute; reflexivity).
  assert (no_file_above (fs Sample.corrupt) ["work"]) as Hfree.
  { intros q c Hq. destruct q as [|x q]; [discriminate|].
    apply suffix_cons_inv in Hq as [[= -> ->]|Hq].
    - vm_compute. discriminate.
    - by apply suffix_nil_inv in Hq. }
  exact (repair_restores_the_file (Sample.env Sample.faithful)
           (Name "vehicles.mp4") Sample.corrupt Sample.vehicles_url
           "900150983cd24fb0d6963f7d28e17f72" (bytes_of "ab")
           (mkResponse 200 (Some 3%Z) (bytes_of "abc"))
           eq_refl Hst Hmd5 eq_refl eq_refl eq_refl Hfree Hnew).
Defined.

(** X10. [download_assets] asks the server only when it has to, and
    only where the table says: in every call, either no request is
    sent, or exactly one is, to the URL registered for the name, and
    then nothing was at the path or the file there did not have the
    registered digest. *)
Theorem requests_are_justified E (a : asset_name_t E) w :
  let f := filename_of E a in
  let w' := snd (download_assets E a w) in
  transfers (log w') = transfers (log w)
  \/ exists url h,
       dict_get (ASSETS E) f = Some (url, h)
       /\ transfers (log w') = transfers (log w) ++ [url]
       /\ (os_stat E (Path f) w = None
           \/ exists contents,
                os_stat E f w = Some (File contents)
                /\ MD5.hexdigest contents <> h).
Proof.
  intros f w'. subst f w'.
  change (download_assets E a w)
    with (download_assets_body E (download_assets_fuel E 1) a w).
  destruct (activation_cases E a w)
    as [([url h] & Hst & Hreg & Hbody)
       |[(e & evs & Hbody & _ & _ & Hg)
        |[(c & url & h & Hst & Hreg & Hmd5 & Hbody)
         |(c & url & h & Hst & Hreg & Hmd5 & Hbody)]]];
    rewrite Hbody.
  - right. exists url, h. split; [done|]. split; [|by left].
    rewrite fetch_then_return. simpl.
    rewrite (fetch_transfers E _ _ url h) by done. simpl.
    by rewrite transfers_app, app_nil_r.
  - left. simpl. by rewrite transfers_app, (count_get_transfers _ Hg), app_nil_r.
  - left. simpl. by rewrite transfers_app, app_nil_r.
  - right. exists url, h. split; [done|]. split; [|right; eauto].
    change (download_assets_fuel E 1)
      with (download_assets_body E (download_assets_fuel E 0)).
    rewrite (activation_after_repair E _ w c (url, h)) by done.
    rewrite fetch_then_return. simpl.
    rewrite (fetch_transfers E _ _ url h) by done. simpl.
    by rewrite <- app_assoc, transfers_app, app_nil_r.
Qed.

(** X11. Other files are safe: whatever the outcome of a call, every
    file and directory that existed before it, other than the file at
    the path of the name and the file at the place the download is
    written to, is still there, unchanged. *)
Theorem other_entries_are_kept E (a : asset_name_t E) w q n :
  let f := filename_of E a in
  fs w !! q = Some n ->
  q <> resolve E f ->
  q <> expanduser_resolve E f ->
  fs (snd (download_assets E a w)) !! q = Some n.
Proof.
  intros f Hq Hne1 Hne2. subst f.
  change (download_assets E a w)
    with (download_assets_body E (download_assets_fuel E 1) a w).
  destruct (activation_cases E a w)
    as [(entry & Hst & Hreg & Hbody)
       |[(e & evs & Hbody & _)
        |[(c & url & h & Hst & Hreg & Hmd5 & Hbody)
         |(c & url & h & Hst & Hreg & Hmd5 & Hbody)]]];
    rewrite Hbody; try done.
  - rewrite fetch_then_return. simpl. by apply fetch_keeps.
  - change (download_assets_fuel E 1)
      with (download_assets_body E (download_assets_fuel E 0)).
    rewrite (activation_after_repair E _ w c (url, h)) by done.
    rewrite fetch_then_return. simpl. apply fetch_keeps; [|done].
    simpl. by rewrite lookup_delete_ne.
Qed.

Lemma other_entries_are_kept_witness :
  fs (snd (download_assets (Sample.env Sample.faithful)
             (Name "vehicles.mp4") Sample.stray))
    !! ["notes.txt"; "work"] = Some (File (bytes_of "to do")).
Proof.
  assert (fs Sample.stray !! ["notes.txt"; "work"]
          = Some (File (bytes_of "to do"))) as Hq
    by (vm_compute; reflexivity).
  assert (["notes.txt"; "work"]
          <> resolve (Sample.env Sample.faithful) "vehicles.mp4") as Hne1
    by (vm_compute; discriminate).
  assert (["notes.txt"; "work"]
          <> expanduser_resolve (Sample.env Sample.faithful) "vehicles.mp4")
    as Hne2 by (vm_compute; discriminate).
  exact (other_entries_are_kept (Sample.env Sample.faithful)
           (Name "vehicles.mp4") Sample.stray ["notes.txt"; "work"]
           (File (bytes_of "to do")) Hq Hne1 Hne2).
Defined.

(** X12. What a call adds to the file system is the downloaded file
    and the directories above it, nothing else: every entry found
    after the call was there before with the same contents, or is at
    the place the download is written to, or is a directory on the
    way to that place. *)
Theorem only_the_download_is_added E (a : asset_name_t E) w q n :
  let f := filename_of E a in
  fs (snd (download_assets E a w)) !! q = Some n ->
  fs w !! q = Some n
  \/ q = expanduser_resolve E f
  \/ (n = Dir /\ q `suffix_of` parent (expanduser_resolve E f)).
Proof.
  intros f. subst f.
  change (download_assets E a w)
    with (download_assets_body E (download_assets_fuel E 1) a w).
  destruct (activation_cases E a w)
    as [(entry & Hst & Hreg & Hbody)
       |[(e & evs & Hbody & _)
        |[(c & url & h & Hst & Hreg & Hmd5 & Hbody)
         |(c & url & h & Hst & Hreg & Hmd5 & Hbody)]]];
    rewrite Hbody; simpl; auto.
  - rewrite fetch_then_return. simpl. intros Hq.
    by apply fetch_adds in Hq.
  - change (download_assets_fuel E 1)
      with (download_assets_body E (download_assets_fuel E 0)).
    rewrite (activation_after_repair E _ w c (url, h)) by done.
    rewrite fetch_then_return. simpl. intros Hq.
    apply fetch_adds in Hq as [Hq|Hq]; [|auto].
    simpl in Hq. apply lookup_delete_Some in Hq as [_ Hq]. auto.
Qed.

Lemma only_the_download_is_added_witness :
  fs (mkWorld ∅ []) !! ["work"] = Some Dir
  \/ ["work"] = expanduser_resolve (Sample.env Sample.faithful)
                  "people-walking.jpg"
  \/ (Dir = Dir
      /\ ["work"] `suffix_of`
           parent (expanduser_resolve (Sample.env Sample.faithful)
                     "people-walking.jpg")).
Proof.
  assert (fs (snd (download_assets (Sample.env Sample.faithful)
                     (Name "people-walking.jpg") (mkWorld ∅ [])))
            !! ["work"] = Some Dir) as Hq by (vm_compute; reflexivity).
  exact (only_the_download_is_added (Sample.env Sample.faithful)
           (Name "people-walking.jpg") (mkWorld ∅ []) ["work"] Dir Hq).
Defined.

(** X13. The empty name.  [Path("")] is the working directory, which
    exists, so the call never reaches the message about invalid
    assets: it fails with [KeyError] on line 86 when the empty name is
    not in the table, and with [FileNotFoundError] from
    [os.remove("")] when it is.  Nothing is changed and no request is
    sent. *)
Theorem empty_name_always_fails E w n :
  os_stat E "." w = Some n ->
  exists e w',
    download_assets E (Name "") w = (Raised e, w')
    /\ fs w' = fs w
    /\ transfers (log w') = transfers (log w)
    /\ ((e = KeyError "" /\ dict_contains (ASSETS E) "" = false)
        \/ (e = FileNotFoundError /\ dict_contains (ASSETS E) "" = true)).
Proof.
  intros Hst. unfold dict_contains.
  destruct (dict_get (ASSETS E) "") as [entry|] eqn:Hreg.
  - exists FileNotFoundError. eexists. split.
    + unfold download_assets. simpl. by eapply body_empty_name.
    + simpl. split; [done|]. split; [|by right].
      by rewrite transfers_app, app_nil_r.
  - exists (KeyError ""). eexists. split.
    + unfold download_assets. simpl.
      exact (body_stray E _ (Name "") w n Hst Hreg).
    + simpl. split; [done|]. split; [|by left].
      by rewrite transfers_app, app_nil_r.
Qed.

Lemma empty_name_always_fails_witness :
  exists e w',
    download_assets (Sample.env Sample.faithful) (Name "") Sample.cold
      = (Raised e, w')
    /\ fs w' = fs Sample.cold
    /\ transfers (log w') = transfers (log Sample.cold)
    /\ ((e = KeyError "" /\ dict_contains Sample.catalogue "" = false)
        \/ (e = FileNotFoundError /\ dict_contains Sample.catalogue "" = true)).
Proof.
  assert (os_stat (Sample.env Sample.faithful) "." Sample.cold = Some Dir)
    as Hst by (vm_compute; reflexivity).
  exact (empty_name_always_fails (Sample.env Sample.faithful) Sample.cold
           Dir Hst).
Defined.

(** X14. A hash of the table that is not written as thirty-two
    lowercase hexadecimal digits defeats the cache: whatever regular
    file is at the path, even the right one, the call finds it
    corrupt, removes it and requests the registered URL again. *)
Theorem malformed_hash_defeats_the_cache E (a : asset_name_t E) w url h contents :
  let f := filename_of E a in
  let w' := snd (download_assets E a w) in
  dict_get (ASSETS E) f = Some (url, h) ->
  is_md5_hex h = false ->
  os_stat E f w = Some (File contents) ->
  transfers (log w') = transfers (log w) ++ [url]
  /\ count is_unlink (skipn (length (log w)) (log w')) = 1%nat.
Proof.
  intros f w' Hreg Hhex Hst. subst f w'.
  assert (MD5.hexdigest contents <> h) as Hmd5.
  { intros <-. by rewrite hexdigest_shape in Hhex. }
  unfold download_assets. simpl.
  rewrite (body_repair E _ a w url h contents) by done.
  change (download_assets_fuel E 1)
    with (download_assets_body E (download_assets_fuel E 0)).
  rewrite (activation_after_repair E _ w contents (url, h)) by done.
  rewrite fetch_then_return. simpl.
  match goal with |- context [fetch E ?f ?w1] =>
    destruct (fetch_bounded E f w1) as (evs & Hlog & _ & _ & _ & Hu);
    pose proof (fetch_transfers E f w1 url h Hreg) as Htr
  end.
  split.
  - rewrite Htr. simpl. by rewrite <- app_assoc, transfers_app, app_nil_r.
  - rewrite Hlog. simpl. rewrite <- !app_assoc, drop_app_length.
    simpl. by rewrite !count_cons, Hu.
Qed.

Lemma malformed_hash_defeats_the_cache_witness :
  transfers (log (snd (download_assets Sample.env_capitals
                         (Name "vehicles.mp4") Sample.cached)))
  = transfers (log Sample.cached) ++ [Sample.vehicles_url]
  /\ count is_unlink
       (skipn (length (log Sample.cached))
          (log (snd (download_assets Sample.env_capitals
                       (Name "vehicles.mp4") Sample.cached)))) = 1%nat.
Proof.
  assert (os_stat Sample.env_capitals "vehicles.mp4" Sample.cached
          = Some (File (bytes_of "abc"))) as Hst
    by (vm_compute; reflexivity).
  exact (malformed_hash_defeats_the_cache Sample.env_capitals
           (Name "vehicles.mp4") Sample.cached Sample.vehicles_url
           "900150983CD24FB0D6963F7D28E17F72" (bytes_of "abc")
           eq_refl eq_refl Hst).
Defined.

Lemma above_is_not_self (p q : path) :
  p <> [] -> q `suffix_of` parent p -> q <> p.
Proof.
  intros Hp Hsuf ->. destruct p as [|x p]; [done|].
  apply suffix_length in Hsuf. simpl in Hsuf. lia.
Qed.

(** The state a first download leaves does not stand in the way of a
    second one. *)
Lemma no_file_above_after_store m m1 p c :
  p <> [] ->
  no_file_above m (parent p) ->
  grown_to (parent p) m m1 ->
  no_file_above (<[p := File c]> m1) (parent p).
Proof.
  intros Hp Hfree (_ & _ & Hnew) q c' Hq Hnode.
  pose proof (above_is_not_self _ _ Hp Hq) as Hne.
  destruct q as [|x q]; [done|]. simpl in Hnode.
  rewrite lookup_insert_ne in Hnode by done.
  destruct (Hnew _ _ Hnode) as [Hold|[? _]]; [|done].
  by apply (Hfree (x :: q) c' Hq).
Qed.

(** X15. A name that [expanduser] rewrites is never cached.  The
    existence test of line 69 looks at the name as given, the
    download of lines 75-82 writes to the expanded name; when the two
    are different places, the first call stores the file, the path
    that is tested stays empty, and the next call downloads the file
    again. *)
Theorem rewritten_name_is_never_cached E (a : asset_name_t E) w url h response :
  let f := filename_of E a in
  let target := expanduser_resolve E f in
  dict_get (ASSETS E) f = Some (url, h) ->
  os_stat E (Path f) w = None ->
  server E url = inr response ->
  error_status response = false ->
  no_file_above (fs w) (parent target) ->
  target <> [] ->
  fs w !! target <> Some Dir ->
  resolve E (Path f) <> target ->
  ~ resolve E (Path f) `suffix_of` parent target ->
  exists w1 w2,
    download_assets E a w = (Returned f, w1)
    /\ fs w1 !! target = Some (File (raw response))
    /\ os_stat E (Path f) w1 = None
    /\ download_assets E a w1 = (Returned f, w2)
    /\ transfers (log w2) = transfers (log w) ++ [url; url].
Proof.
  intros f target Hreg Hst Hsrv Hok Hfree Hne Hnd Hdiff Hnot.
  subst f target.
  set (f := filename_of E a) in *. set (target := expanduser_resolve E f) in *.
  (* the first call *)
  destruct (Path_mkdir_ok _ _ Hfree) as [m1 Hmk].
  pose proof (Path_mkdir_inr _ _ _ Hmk) as Hgrown.
  assert (m1 !! target <> Some Dir) as Hnd1.
  { intros Hq. destruct Hgrown as (_ & _ & Hnew).
    destruct (Hnew _ _ Hq) as [Hold|[_ Hsuf]]; [done|].
    by apply (above_is_not_self target target). }
  pose proof (fetch_ok E f (emit (Stat (Path f)) w) url h response m1
                Hreg Hsrv Hok Hmk Hne Hnd1) as Hfetch1.
  assert (download_assets E a w =
            (Returned f,
             mkWorld (<[target := File (raw response)]> m1)
               (log w ++ [Stat (Path f);
                          Print ("Downloading " +:+ f +:+ " assets " +:+ LF);
                          HttpGet url; Mkdir (parent target);
                          WriteAll target (raw response)]))) as Hrun1.
  { unfold download_assets. simpl.
    rewrite (body_cold E _ a w (url, h)) by done.
    fold f. rewrite fetch_then_return, Hfetch1. simpl.
    by rewrite <- app_assoc. }
  (* the path that is tested is still empty *)
  match type of Hrun1 with _ = (_, ?w0) => set (w1 := w0) in * end.
  assert (os_stat E (Path f) w1 = None) as Hst1.
  { rewrite os_stat_node in Hst |- * by apply Path_nonempty. simpl.
    destruct (resolve E (Path f)) as [|x q] eqn:Hr; [done|]. simpl in *.
    rewrite lookup_insert_ne by done.
    destruct (m1 !! (x :: q)) as [n|] eqn:Hq; [|done].
    destruct Hgrown as (_ & _ & Hnew).
    destruct (Hnew _ _ Hq) as [Hold|[_ Hsuf]]; [congruence|done]. }
  (* the second call *)
  assert (no_file_above (fs w1) (parent target)) as Hfree1
    by (by apply no_file_above_after_store with (m := fs w)).
  destruct (Path_mkdir_ok _ _ Hfree1) as [m2 Hmk2].
  pose proof (Path_mkdir_inr _ _ _ Hmk2) as (_ & Hsub2 & _).
  assert (m2 !! target <> Some Dir) as Hnd2.
  { assert (m2 !! target = Some (File (raw response))) as ->; [|done].
    eapply lookup_weaken; [|exact Hsub2]. simpl. apply lookup_insert_eq. }
  pose proof (fetch_ok E f (emit (Stat (Path f)) w1) url h response m2
                Hreg Hsrv Hok Hmk2 Hne Hnd2) as Hfetch2.
  exists w1. eexists. split; [exact Hrun1|].
  split; [simpl; apply lookup_insert_eq|]. split; [exact Hst1|]. split.
  - unfold download_assets. simpl.
    rewrite (body_cold E _ a w1 (url, h)) by done.
    fold f. rewrite fetch_then_return, Hfetch2. reflexivity.
  - simpl. rewrite <- !app_assoc, transfers_app. reflexivity.
Qed.

Lemma rewritten_name_is_never_cached_witness :
  exists w1 w2,
    download_assets Sample.env_homely (Name "~/clip.mp4") Sample.cold_homely
      = (Returned "~/clip.mp4", w1)
    /\ fs w1 !! ["clip.mp4"; "user"; "home"] = Some (File (bytes_of "abc"))
    /\ os_stat Sample.env_homely "~/clip.mp4" w1 = None
    /\ download_assets Sample.env_homely (Name "~/clip.mp4") w1
       = (Returned "~/clip.mp4", w2)
    /\ transfers (log w2) = transfers (log Sample.cold_homely)
                            ++ [Sample.clip_url; Sample.clip_url].
Proof.
  assert (no_file_above (fs Sample.cold_homely) ["user"; "home"]) as Hfree.
  { intros q c Hq. destruct q as [|x q]; [discriminate|].
    apply suffix_cons_inv in Hq as [[= -> ->]|Hq].
    - vm_compute. discriminate.
    - apply suffix_cons_inv in Hq as [[= -> ->]|Hq].
      + vm_compute. discriminate.
      + by apply suffix_nil_inv in Hq. }
  assert (["clip.mp4"; "user"; "home"] <> ([] : path)) as Hne by discriminate.
  assert (fs Sample.cold_homely !! ["clip.mp4"; "user"; "home"] <> Some Dir)
    as Hnd by (vm_compute; discriminate).
  assert (["~/clip.mp4"; "work"] <> ["clip.mp4"; "user"; "home"]) as Hdiff
    by discriminate.
  assert (~ ["~/clip.mp4"; "work"] `suffix_of` ["user"; "home"]) as Hnot.
  { intros Hs. apply suffix_cons_inv in Hs as [[=]|Hs].
    apply suffix_length in Hs. simpl in Hs. lia. }
  exact (rewritten_name_is_never_cached Sample.env_homely
           (Name "~/clip.mp4") Sample.cold_homely Sample.clip_url
           "900150983cd24fb0d6963f7d28e17f72"
           (mkResponse 200 (Some 3%Z) (bytes_of "abc"))
           eq_refl eq_refl eq_refl eq_refl Hfree Hne Hnd Hdiff Hnot).
Defined.
